(** * Lending bot: tool registry, tool dispatcher and assistant runner

    A shallow embedding of [tools.py] (the [ToolSchema] dataclass and the
    [ToolRegistry]) and of [conversation_utils.py] (the [ToolDispatcher] and
    the [AssistantRunner]), followed by the properties of the run-lifecycle
    and tool-dispatch specification that were checked against them, and of
    [main_model.py] (the [LendingBotPipeline]) with further properties of
    the three files.

    Conventions of the embedding:
    - a Python [str] is a [string] holding its UTF-8 bytes;
    - a Python [dict] built from a literal is an association list in
      insertion order; the keyword mapping unpacked by [**args] is a
      [gmap string pyval], because binding ignores the order of the keys;
    - a method that mutates [self] takes the object and returns the new
      object next to its outcome;
    - a raised exception is a value of [exn]; [exn_class] gives the name of
      its Python class. *)

From stdpp Require Import gmap strings list pretty.

Set Default Proof Using "Type".
Set Warnings "-register-all".

(* ===================================================================== *)
(** * Exceptions and outcomes                                             *)
(* ===================================================================== *)

(** The exceptions the two modules can raise: the interpreter's own
    ([TypeError] from binding keyword arguments, [AttributeError] from an
    attribute that is absent, [IndexError] from indexing past a list), the
    [ValueError] of [add_builtin] with its message, and whatever the remote
    client raises, kept by class name and message. *)
Inductive exn : Type :=
| TypeError
| AttributeError
| IndexError
| ValueError (msg : string)
| ClientError (cls msg : string).

Definition exn_class (e : exn) : string :=
  match e with
  | TypeError => "TypeError"
  | AttributeError => "AttributeError"
  | IndexError => "IndexError"
  | ValueError _ => "ValueError"
  | ClientError cls _ => cls
  end.

Inductive result (A : Type) : Type :=
| Ok (a : A)
| Raise (e : exn).
Arguments Ok {A} a.
Arguments Raise {A} e.

Definition result_bind {A B} (r : result A) (k : A -> result B) : result B :=
  match r with
  | Ok a => k a
  | Raise e => Raise e
  end.

Declare Scope result_scope.
Delimit Scope result_scope with result.
Notation "x <~ c ;; k" := (result_bind c (fun x => k))
  (at level 100, c at next level, right associativity) : result_scope.

(* ===================================================================== *)
(** * tools.py                                                            *)
(* ===================================================================== *)

Module Tools.

(** The values that occur in the payload sent to the service. *)
Inductive json : Type :=
| JStr (s : string)
| JList (l : list json)
| JDict (d : list (string * json)).

(** [Dict[str, Any]] *)
Abbreviation pydict := (list (string * json)).

(** [@dataclass class ToolSchema] *)
Record ToolSchema : Type := mkToolSchema {
  name : string;
  description : string;
  properties : list (string * pydict);
  required : list string;
}.

(** [ToolSchema.to_openai_dict] *)
Definition to_openai_dict (self : ToolSchema) : pydict :=
  [ ("type", JStr "function");
    ("function", JDict
       [ ("name", JStr (name self));
         ("description", JStr (description self));
         ("parameters", JDict
            [ ("type", JStr "object");
              ("properties",
                 JDict (map (fun kv => (fst kv, JDict (snd kv))) (properties self)));
              ("required", JList (map JStr (required self))) ]) ]) ].

(** An element of [self._tools : List[ToolSchema | Dict[str, str]]]. *)
Inductive entry : Type :=
| Schema (s : ToolSchema)
| Dict (d : pydict).

(** [class ToolRegistry]: its only attribute is [_tools]. *)
Record ToolRegistry : Type := mkToolRegistry { _tools : list entry }.

(** A method of the registry: the registry after the call and what the call
    returned or raised. *)
Definition method (A : Type) : Type := ToolRegistry -> ToolRegistry * result A.

Definition and_then {A B} (m : method A) (k : method B) : method B :=
  fun self =>
    match m self with
    | (self', Ok _) => k self'
    | (self', Raise e) => (self', Raise e)
    end.
Infix ">>" := and_then (at level 62, right associativity).

(** [ToolRegistry.__init__] *)
Definition init : ToolRegistry := {| _tools := [] |}.

(** [ToolRegistry.add_function] *)
Definition add_function (schema : ToolSchema) : method unit :=
  fun self => ({| _tools := _tools self ++ [Schema schema] |}, Ok tt).

(** The set literal [{"code_interpreter", "file_search"}]. *)
Definition builtin_names : gset string := {[ "code_interpreter"; "file_search" ]}.

(** [ToolRegistry.add_builtin] *)
Definition add_builtin (builtin_name : string) : method unit :=
  fun self =>
    if bool_decide (builtin_name ∉ builtin_names)
    then (self, Raise (ValueError ("Unknown built‑in tool: " +:+ builtin_name)))
    else ({| _tools := _tools self ++ [Dict [("type", JStr builtin_name)]] |}, Ok tt).

Definition webSearch_schema : ToolSchema :=
  {| name := "webSearch";
     description := "Real‑time Bing search for rates, regulations, or news.";
     properties :=
       [ ("query", [("type", JStr "string"); ("description", JStr "Search query.")]);
         ("freshness_days",
            [ ("type", JStr "integer");
              ("description", JStr "Restrict results to the last N days (optional).") ]) ];
     required := ["query"] |}.

Definition getRateSheet_schema : ToolSchema :=
  {| name := "getRateSheet";
     description := "Fetch the latest pricing for a loan scenario.";
     properties :=
       [ ("loanType", [("type", JStr "string")]);
         ("fico", [("type", JStr "integer")]);
         ("ltv", [("type", JStr "number")]) ];
     required := ["loanType"; "fico"; "ltv"] |}.

Definition createLoanDoc_schema : ToolSchema :=
  {| name := "createLoanDoc";
     description := "Generate or fill a lending document and return the file_id.";
     properties :=
       [ ("borrowerId", [("type", JStr "string")]);
         ("templateId", [("type", JStr "string")]) ];
     required := ["borrowerId"; "templateId"] |}.

(** [ToolRegistry.default]: [reg = cls()], the five registrations, and
    [return reg]; an exception of a registration leaves the factory. *)
Definition default : result ToolRegistry :=
  let reg := init in
  match
    ( add_builtin "code_interpreter" >>
      add_builtin "file_search" >>
      add_function webSearch_schema >>
      add_function getRateSheet_schema >>
      add_function createLoanDoc_schema ) reg
  with
  | (reg, Ok _) => Ok reg
  | (_, Raise e) => Raise e
  end.

(** [ToolRegistry.openai_tools]: the loop appends to [payload] the entry
    itself when it is a dict and its [to_openai_dict()] otherwise. Nothing
    is assigned to [self]. *)
Definition openai_tools (self : ToolRegistry) : ToolRegistry * list pydict :=
  let payload :=
    fold_left
      (fun payload t =>
         payload ++ [match t with Dict d => d | Schema s => to_openai_dict s end])
      (_tools self) []
  in (self, payload).

(** ** Notions used to state the properties of the registry *)

(** The names of the custom tools of a registry, in registration order. *)
Definition custom_names (reg : ToolRegistry) : list string :=
  omap (fun t => match t with Schema s => Some (name s) | Dict _ => None end)
       (_tools reg).

(** A built-in entry is a dict with the single key [type], bound to one of
    the two tags; a schema entry is not constrained. *)
Definition builtin_entry_ok (t : entry) : Prop :=
  match t with
  | Schema _ => True
  | Dict d => exists tag, d = [("type", JStr tag)] /\ tag ∈ builtin_names
  end.

(** The registries that the constructor, the two registration methods and
    the factory can produce. *)
Inductive reachable : ToolRegistry -> Prop :=
| reach_init : reachable init
| reach_add_builtin tag reg :
    reachable reg -> reachable (fst (add_builtin tag reg))
| reach_add_function schema reg :
    reachable reg -> reachable (fst (add_function schema reg))
| reach_default reg :
    default = Ok reg -> reachable reg.

(** The registry the factory is expected to build. *)
Definition standard_toolset : ToolRegistry :=
  {| _tools :=
       [ Dict [("type", JStr "code_interpreter")];
         Dict [("type", JStr "file_search")];
         Schema webSearch_schema;
         Schema getRateSheet_schema;
         Schema createLoanDoc_schema ] |}.

End Tools.

(* ===================================================================== *)
(** * conversation_utils.py: the tool dispatcher                          *)
(* ===================================================================== *)

Module Conversation.

(** A value of the keyword mapping of a tool call: the JSON scalars the
    three schemas declare ([string], [integer], [number]), [None] and
    booleans. A float is kept as its [repr] text, the only thing the code
    reads of it. *)
Inductive pyval : Type :=
| VNone
| VBool (b : bool)
| VInt (z : Z)
| VFloat (repr : string)
| VStr (s : string).

(** What a replacement field [{v}] of an f-string yields: [format(v, "")]. *)
Definition format (v : pyval) : string :=
  match v with
  | VNone => "None"
  | VBool true => "True"
  | VBool false => "False"
  | VInt z => pretty z
  | VFloat repr => repr
  | VStr s => s
  end.

(** [call.function]: the name and the arguments, which the dispatcher
    unpacks as a keyword mapping. *)
Record Function : Type := mkFunction {
  fn_name : string;
  fn_arguments : gmap string pyval;
}.

(** An element of [required_action.submit_tool_outputs.tool_calls]. *)
Record ToolCall : Type := mkToolCall {
  call_id : string;
  call_function : Function;
}.

(** The dict literal [{"tool_call_id": ..., "output": ...}]. *)
Record ToolOutput : Type := mkToolOutput {
  tool_call_id : string;
  output : string;
}.

(** The run object: [required_action] is [None] unless the run waits for
    tool outputs, and holds [submit_tool_outputs.tool_calls] then. *)
Record Run : Type := mkRun {
  run_id : string;
  status : string;
  required_action : option (list ToolCall);
}.

(** ** Mock tool implementations *)

(** [ToolDispatcher.web_search] *)
Definition web_search (query freshness_days : pyval) : string :=
  "<mock WebSearch results for '" +:+ format query +:+ "', freshness="
    +:+ format freshness_days +:+ ">".

(** [ToolDispatcher.get_rate_sheet] *)
Definition get_rate_sheet (loanType fico ltv : pyval) : string :=
  "RateSheet mock → " +:+ format loanType +:+ "|FICO " +:+ format fico
    +:+ "|LTV " +:+ format ltv +:+ " ⇒ 6.25%/0.2 pts".

(** [ToolDispatcher.create_loan_doc] *)
Definition create_loan_doc (borrowerId templateId : pyval) : string :=
  "file_mock_" +:+ format borrowerId +:+ "_" +:+ format templateId.

(** ** Calls with an unpacked keyword mapping

    [f( **args )] binds every key of [args] to the parameter of that name. A
    key that names no parameter and a parameter without default that no key
    names both raise [TypeError] before the body runs. *)

Definition unexpected_keyword (params : list string) (args : gmap string pyval) : bool :=
  bool_decide (¬ (dom args ⊆ list_to_set params)).

(** [self.web_search( **args )]: [query] is required, [freshness_days]
    defaults to [None]. *)
Definition call_web_search (args : gmap string pyval) : result string :=
  if unexpected_keyword ["query"; "freshness_days"] args then Raise TypeError else
  match args !! "query" with
  | Some query => Ok (web_search query (default VNone (args !! "freshness_days")))
  | None => Raise TypeError
  end.

(** [self.get_rate_sheet( **args )]: three required parameters. *)
Definition call_get_rate_sheet (args : gmap string pyval) : result string :=
  if unexpected_keyword ["loanType"; "fico"; "ltv"] args then Raise TypeError else
  match args !! "loanType", args !! "fico", args !! "ltv" with
  | Some loanType, Some fico, Some ltv => Ok (get_rate_sheet loanType fico ltv)
  | _, _, _ => Raise TypeError
  end.

(** [self.create_loan_doc( **args )]: two required parameters. *)
Definition call_create_loan_doc (args : gmap string pyval) : result string :=
  if unexpected_keyword ["borrowerId"; "templateId"] args then Raise TypeError else
  match args !! "borrowerId", args !! "templateId" with
  | Some borrowerId, Some templateId => Ok (create_loan_doc borrowerId templateId)
  | _, _ => Raise TypeError
  end.

(** ** [ToolDispatcher.handle_step] *)

(** The body of the loop: the dict appended to [outputs] for one call. *)
Definition handle_call (call : ToolCall) : result ToolOutput :=
  let name := fn_name (call_function call) in
  let args := fn_arguments (call_function call) in
  if String.eqb name "webSearch" then
    (out <~ call_web_search args ;;
     Ok {| tool_call_id := call_id call; output := out |})%result
  else if String.eqb name "getRateSheet" then
    (out <~ call_get_rate_sheet args ;;
     Ok {| tool_call_id := call_id call; output := out |})%result
  else if String.eqb name "createLoanDoc" then
    (out <~ call_create_loan_doc args ;;
     Ok {| tool_call_id := call_id call; output := out |})%result
  else
    Ok {| tool_call_id := call_id call; output := "Unknown tool " +:+ name |}.

(** The [for] loop over the tool calls, with the list [outputs] built so
    far. *)
Fixpoint handle_loop (tool_calls : list ToolCall) (outputs : list ToolOutput)
  : result (list ToolOutput) :=
  match tool_calls with
  | [] => Ok outputs
  | call :: rest =>
      (o <~ handle_call call ;; handle_loop rest (outputs ++ [o]))%result
  end.

(** [run_obj.required_action] is [None] on a run that does not wait for
    tool outputs: reading [.submit_tool_outputs] of it raises
    [AttributeError]. *)
Definition handle_step (run_obj : Run) : result (list ToolOutput) :=
  match required_action run_obj with
  | None => Raise AttributeError
  | Some tool_calls => handle_loop tool_calls []
  end.

(** ** Notions used to state the properties of the dispatcher *)

(** The keyword mapping binds to a signature: every key names a parameter
    and every parameter without default is named by a key. *)
Definition binds (required optional : list string) (args : gmap string pyval) : bool :=
  bool_decide (dom args ⊆ list_to_set (required ++ optional))
  && forallb (fun p => bool_decide (is_Some (args !! p))) required.

(** The call names no known tool, or its mapping binds to the signature of
    the tool it names. *)
Definition well_called (call : ToolCall) : bool :=
  let name := fn_name (call_function call) in
  let args := fn_arguments (call_function call) in
  if String.eqb name "webSearch" then binds ["query"] ["freshness_days"] args
  else if String.eqb name "getRateSheet" then binds ["loanType"; "fico"; "ltv"] [] args
  else if String.eqb name "createLoanDoc" then binds ["borrowerId"; "templateId"] [] args
  else true.

(** The callable that the name of the call resolves to raises [e] on the
    arguments of the call. *)
Definition tool_raises (call : ToolCall) (e : exn) : Prop :=
  let name := fn_name (call_function call) in
  let args := fn_arguments (call_function call) in
  (name = "webSearch" /\ call_web_search args = Raise e)
  \/ (name = "getRateSheet" /\ call_get_rate_sheet args = Raise e)
  \/ (name = "createLoanDoc" /\ call_create_loan_doc args = Raise e).

(** ** Sample tool calls *)

Definition rate_call : ToolCall :=
  {| call_id := "call_1";
     call_function :=
       {| fn_name := "getRateSheet";
          fn_arguments :=
            {[ "loanType" := VStr "30yr_fixed"; "fico" := VInt 740;
               "ltv" := VFloat "0.8" ]} |} |}.

(** A search whose mapping has the required [query] and a key that is no
    parameter of [web_search]. *)
Definition search_call_extra : ToolCall :=
  {| call_id := "call_2";
     call_function :=
       {| fn_name := "webSearch";
          fn_arguments := {[ "query" := VStr "rates"; "region" := VStr "US" ]} |} |}.

(** A search without its [query]. *)
Definition search_call_missing : ToolCall :=
  {| call_id := "call_3";
     call_function := {| fn_name := "webSearch"; fn_arguments := ∅ |} |}.

Definition unknown_call : ToolCall :=
  {| call_id := "call_4";
     call_function := {| fn_name := "sendEmail"; fn_arguments := ∅ |} |}.

(** A run that waits for the outputs of [tool_calls]. *)
Definition awaiting (tool_calls : list ToolCall) : Run :=
  {| run_id := "run_1"; status := "requires_action";
     required_action := Some tool_calls |}.

(* ===================================================================== *)
(** * conversation_utils.py: the assistant runner                         *)
(* ===================================================================== *)

(** [thread.id] *)
Record Thread : Type := mkThread { th_id : string }.

(** A content part of a message: only a text part has [.text]. *)
Inductive ContentBlock : Type :=
| TextBlock (value : string)
| ImageFileBlock (file_id : string)
| ImageURLBlock (url : string).

Record Message : Type := mkMessage { content : list ContentBlock }.

(** The requests the runner sends to the service, with their arguments, and
    the pause between two polls (in milliseconds). *)
Inductive event : Type :=
| ThreadsCreate
| ThreadsRetrieve (thread_id : string)
| MessagesCreate (thread_id role content : string)
| RunsCreate (assistant_id thread_id : string) (stream : bool)
| SubmitToolOutputs (run_id thread_id : string) (tool_outputs : list ToolOutput)
| Sleep (millis : N)
| RunsRetrieve (run_id thread_id : string)
| MessagesList (thread_id order : string).

(** The part of the [AzureOpenAI] client the runner uses, over a state [Σ]
    of the remote service. Every request may raise. [messages_list] returns
    the [data] of the page. *)
Record AzureOpenAI (Σ : Type) : Type := mkClient {
  threads_create : Σ -> Σ * result Thread;
  threads_retrieve : string -> Σ -> Σ * result Thread;
  messages_create : string -> string -> string -> Σ -> Σ * result unit;
  runs_create : string -> string -> bool -> Σ -> Σ * result Run;
  runs_submit_tool_outputs : string -> string -> list ToolOutput -> Σ -> Σ * result Run;
  runs_retrieve : string -> string -> Σ -> Σ * result Run;
  messages_list : string -> string -> Σ -> Σ * result (list Message);
}.
Arguments threads_create {Σ} _ _.
Arguments threads_retrieve {Σ} _ _ _.
Arguments messages_create {Σ} _ _ _ _ _.
Arguments runs_create {Σ} _ _ _ _ _.
Arguments runs_submit_tool_outputs {Σ} _ _ _ _ _.
Arguments runs_retrieve {Σ} _ _ _ _.
Arguments messages_list {Σ} _ _ _ _.

(** What a computation of the runner ends in. [OutOfFuel] is not an outcome
    of the program: it marks a loop that is still polling when the bound on
    the number of iterations is reached. *)
Inductive outcome (A : Type) : Type :=
| Returns (a : A)
| Raises (e : exn)
| OutOfFuel.
Arguments Returns {A} a.
Arguments Raises {A} e.
Arguments OutOfFuel {A}.

Definition of_result {A} (r : result A) : outcome A :=
  match r with
  | Ok a => Returns a
  | Raise e => Raises e
  end.

(** [msgs.data[-1].content[0].text.value] *)
Definition final_text (data : list Message) : result string :=
  match last data with
  | None => Raise IndexError
  | Some m =>
      match content m with
      | [] => Raise IndexError
      | TextBlock value :: _ => Ok value
      | _ :: _ => Raise AttributeError
      end
  end.

(** The statuses on which the loop goes on. *)
Definition polling_statuses : gset string :=
  {[ "queued"; "in_progress"; "requires_action" ]}.

Section Runner.
Context {Σ : Type}.

(** The state threaded through a run: the remote service and the requests
    sent so far, oldest first. *)
Definition world : Type := Σ * list event.

Definition M (A : Type) : Type := world -> world * outcome A.

Definition ret {A} (a : A) : M A := fun w => (w, Returns a).

Definition bind {A B} (m : M A) (k : A -> M B) : M B :=
  fun w =>
    match m w with
    | (w', Returns a) => k a w'
    | (w', Raises e) => (w', Raises e)
    | (w', OutOfFuel) => (w', OutOfFuel)
    end.

Definition lift {A} (r : result A) : M A := fun w => (w, of_result r).

(** One request to the service: it is recorded, then answered. *)
Definition request {A} (ev : event) (op : Σ -> Σ * result A) : M A :=
  fun w =>
    let (σ', r) := op (fst w) in ((σ', snd w ++ [ev]), of_result r).

(** [time.sleep] *)
Definition sleep (millis : N) : M unit :=
  fun w => ((fst w, snd w ++ [Sleep millis]), Returns tt).

Notation "x <- c ;; k" := (bind c (fun x => k))
  (at level 100, c at next level, right associativity).

(** [class AssistantRunner]; the dispatcher has no state of its own. *)
Record AssistantRunner : Type := mkRunner {
  assistant_id : string;
  client : AzureOpenAI Σ;
}.

Variable self : AssistantRunner.

(** One iteration of the [while] loop: the run object it ends with. *)
Definition poll_step (thread : Thread) (run : Run) : M Run :=
  if String.eqb (status run) "requires_action" then
    outputs <- lift (handle_step run) ;;
    request (SubmitToolOutputs (run_id run) (th_id thread) outputs)
      (runs_submit_tool_outputs (client self) (run_id run) (th_id thread) outputs)
  else
    _ <- sleep 750 ;;
    request (RunsRetrieve (run_id run) (th_id thread))
      (runs_retrieve (client self) (run_id run) (th_id thread)).

(** Step 4, [while run.status in {...}], for at most [fuel] iterations. *)
Fixpoint poll_loop (fuel : nat) (thread : Thread) (run : Run) : M Run :=
  if bool_decide (status run ∈ polling_statuses) then
    match fuel with
    | O => fun w => (w, OutOfFuel)
    | S fuel' =>
        run' <- poll_step thread run ;;
        poll_loop fuel' thread run'
    end
  else ret run.

(** Step 5: list the messages and read the last one. *)
Definition fetch_final (thread : Thread) : M string :=
  data <- request (MessagesList (th_id thread) "asc")
            (messages_list (client self) (th_id thread) "asc") ;;
  lift (final_text data).

(** Steps 4 and 5, from the run object in hand. *)
Definition run_from (fuel : nat) (thread : Thread) (run : Run) : M string :=
  _ <- poll_loop fuel thread run ;;
  fetch_final thread.

(** [AssistantRunner.run] *)
Definition run (fuel : nat) (user_message : string) (thread_id : option string)
  : M string :=
  thread <- match thread_id with
            | None => request ThreadsCreate (threads_create (client self))
            | Some t => request (ThreadsRetrieve t) (threads_retrieve (client self) t)
            end ;;
  _ <- request (MessagesCreate (th_id thread) "user" user_message)
         (messages_create (client self) (th_id thread) "user" user_message) ;;
  run <- request (RunsCreate (assistant_id self) (th_id thread) false)
           (runs_create (client self) (assistant_id self) (th_id thread) false) ;;
  run_from fuel thread run.

End Runner.

Arguments AssistantRunner : clear implicits.
Arguments M : clear implicits.
Arguments world : clear implicits.

(** ** A scripted service

    A stand-in for the remote service whose replies are fixed in advance:
    the run objects answered to [create], [retrieve] and
    [submit_tool_outputs], in that order, and the page answered to
    [messages.list]. *)
Record script : Type := mkScript {
  runs : list Run;
  listing : list Message;
}.

Definition next_run (σ : script) : script * result Run :=
  match runs σ with
  | [] => (σ, Raise (ClientError "APIConnectionError" "Connection error."))
  | r :: rest => ({| runs := rest; listing := listing σ |}, Ok r)
  end.

Definition scripted : AzureOpenAI script :=
  {| threads_create := fun σ => (σ, Ok {| th_id := "thread_1" |});
     threads_retrieve := fun t σ => (σ, Ok {| th_id := t |});
     messages_create := fun _ _ _ σ => (σ, Ok tt);
     runs_create := fun _ _ _ σ => next_run σ;
     runs_submit_tool_outputs := fun _ _ _ σ => next_run σ;
     runs_retrieve := fun _ _ σ => next_run σ;
     messages_list := fun _ order σ =>
       (σ, Ok (if String.eqb order "asc" then listing σ else reverse (listing σ))) |}.

Definition scripted_runner : AssistantRunner script :=
  {| assistant_id := "asst_1"; client := scripted |}.

(** A run object as a poll returns it, without required action. *)
Definition polled (status : string) : Run :=
  {| run_id := "run_1"; status := status; required_action := None |}.

Definition text_message (value : string) : Message :=
  {| content := [TextBlock value] |}.

End Conversation.

(* ===================================================================== *)
(** * Observations on payloads and traces                                 *)
(* ===================================================================== *)

Module Notions.
Import Conversation.

(** [d.get(k)] on a dict kept as an association list. *)
Fixpoint dict_get (k : string) (d : Tools.pydict) : option Tools.json :=
  match d with
  | [] => None
  | (k', v) :: rest => if String.eqb k' k then Some v else dict_get k rest
  end.

(** The values of [type] that the service accepts in a tool descriptor. *)
Definition descriptor_types : list string :=
  ["function"; "code_interpreter"; "file_search"].

(** The first request of a turn: a new thread, or the retrieval of the
    thread whose id was supplied. *)
Definition resolve_event (thread_id : option string) : event :=
  match thread_id with
  | None => ThreadsCreate
  | Some t => ThreadsRetrieve t
  end.

Definition resolve {Σ : Type} (client : AzureOpenAI Σ) (thread_id : option string)
  : Σ -> Σ * result Thread :=
  match thread_id with
  | None => threads_create client
  | Some t => threads_retrieve client t
  end.

(** The shape of what the polling loop sends for one thread: a sequence of
    blocks, each a pause of 750 ms followed by a retrieval of the run, or a
    submission of tool outputs. *)
Inductive loop_trace (thread_id : string) : list event -> Prop :=
| loop_done :
    loop_trace thread_id []
| loop_wait run_id evs :
    loop_trace thread_id evs ->
    loop_trace thread_id (Sleep 750 :: RunsRetrieve run_id thread_id :: evs)
| loop_submit run_id outputs evs :
    loop_trace thread_id evs ->
    loop_trace thread_id (SubmitToolOutputs run_id thread_id outputs :: evs).

(** What one iteration on the run object [run] sends. *)
Definition step_events (thread_id : string) (run : Run) : list event :=
  if String.eqb (status run) "requires_action" then
    match handle_step run with
    | Ok outputs => [SubmitToolOutputs (run_id run) thread_id outputs]
    | Raise _ => []
    end
  else [Sleep 750; RunsRetrieve (run_id run) thread_id].

(** The run object can be handled by one iteration without an exception of
    the dispatcher. *)
Definition steppable (run : Run) : Prop :=
  status run ∈ polling_statuses
  /\ (status run = "requires_action" -> exists outputs, handle_step run = Ok outputs).

(** A service on which every run stays [queued]. *)
Definition always_queued : AzureOpenAI unit :=
  {| threads_create := fun σ => (σ, Ok {| th_id := "thread_1" |});
     threads_retrieve := fun t σ => (σ, Ok {| th_id := t |});
     messages_create := fun _ _ _ σ => (σ, Ok tt);
     runs_create := fun _ _ _ σ => (σ, Ok (polled "queued"));
     runs_submit_tool_outputs := fun _ _ _ σ => (σ, Ok (polled "queued"));
     runs_retrieve := fun _ _ σ => (σ, Ok (polled "queued"));
     messages_list := fun _ _ σ => (σ, Ok []) |}.

Definition waiting_runner : AssistantRunner unit :=
  {| assistant_id := "asst_1"; client := always_queued |}.

End Notions.

(* ===================================================================== *)
(** * main_model.py: the pipeline                                         *)
(* ===================================================================== *)

Module Pipeline.
Import Conversation.

(** The vector store object: [vs.id] and [vs.status]. *)
Record VectorStore : Type := mkVectorStore {
  vs_id : string;
  vs_status : string;
}.

(** What the pipeline does to its environment: the tests and openings of
    local files, the requests to the service outside a turn, the two uses
    of the Haystack library, and the requests of a turn of the runner. *)
Inductive effect : Type :=
| PathExists (path : string)
| Open (path mode : string)
| FilesCreate (file purpose : string)
| VectorStoresCreate (name : string) (file_ids : list string)
| VectorStoresRetrieve (vector_store_id : string)
| AssistantsCreate (name model instructions : string)
    (tools : list Tools.pydict) (tool_resources : Tools.pydict)
| HaystackBuild
| PipelineRun (query : string)
| Turn (e : event).

(** The environment of the pipeline over a state [Σ]: the client of the
    runner, the rest of the client, the local file system, and Haystack.
    [files_create] is given the path of the opened file and returns
    [upload.id]; [assistants_create] returns [assistant.id]. The Haystack
    objects are opaque: [haystack_build] stands for the construction of
    the retriever and of the two-node pipeline, [pipeline_run] for
    [self.pipeline.run(query=prompt)], whose result is dropped. *)
Record Backend (Σ : Type) : Type := mkBackend {
  beta : AzureOpenAI Σ;
  path_exists : string -> Σ -> bool;
  open_file : string -> string -> Σ -> Σ * result unit;
  files_create : string -> string -> Σ -> Σ * result string;
  vector_stores_create : string -> list string -> Σ -> Σ * result VectorStore;
  vector_stores_retrieve : string -> Σ -> Σ * result VectorStore;
  assistants_create :
    string -> string -> string -> list Tools.pydict -> Tools.pydict ->
    Σ -> Σ * result string;
  haystack_build : Σ -> Σ * result unit;
  pipeline_run : string -> Σ -> Σ * result unit;
}.
Arguments beta {Σ} _.
Arguments path_exists {Σ} _ _ _.
Arguments open_file {Σ} _ _ _ _.
Arguments files_create {Σ} _ _ _ _.
Arguments vector_stores_create {Σ} _ _ _ _.
Arguments vector_stores_retrieve {Σ} _ _ _.
Arguments assistants_create {Σ} _ _ _ _ _ _ _.
Arguments haystack_build {Σ} _ _.
Arguments pipeline_run {Σ} _ _ _.

(** [FileNotFoundError(file_path)], kept by class name and argument. *)
Definition FileNotFoundError (file_path : string) : exn :=
  ClientError "FileNotFoundError" file_path.

(** The truth value of an optional string and of an optional list, as
    [if vector_store_id] and [if temp_files] test them. *)
Definition truthy_str (s : option string) : bool :=
  match s with
  | Some s => negb (String.eqb s "")
  | None => false
  end.

Definition truthy_list {A} (l : option (list A)) : bool :=
  match l with
  | Some (_ :: _) => true
  | _ => false
  end.

(** The [tool_resources] argument of [assistants.create]. *)
Definition tool_resources (vector_store_id : option string) : Tools.pydict :=
  [ ("file_search",
     Tools.JDict
       (if truthy_str vector_store_id
        then [("vector_store_ids",
               Tools.JList [Tools.JStr (default "" vector_store_id)])]
        else [])) ].

Definition instructions : string :=
  "You answer lending questions, cite sources, and call tools as needed.".

Section Facade.
Context {Σ : Type}.

Definition pworld : Type := Σ * list effect.

Definition PM (A : Type) : Type := pworld -> pworld * outcome A.

Definition pret {A} (a : A) : PM A := fun w => (w, Returns a).

Definition pbind {A B} (m : PM A) (k : A -> PM B) : PM B :=
  fun w =>
    match m w with
    | (w', Returns a) => k a w'
    | (w', Raises e) => (w', Raises e)
    | (w', OutOfFuel) => (w', OutOfFuel)
    end.

Definition praise {A} (e : exn) : PM A := fun w => (w, Raises e).

Definition plift {A} (r : result A) : PM A := fun w => (w, of_result r).

(** One effect: it is recorded, then answered. *)
Definition perform {A} (ev : effect) (op : Σ -> Σ * result A) : PM A :=
  fun w =>
    let (σ', r) := op (fst w) in ((σ', snd w ++ [ev]), of_result r).

(** A turn of the runner inside the pipeline: its requests are recorded
    after what the pipeline did before. *)
Definition turn {A} (m : M Σ A) : PM A :=
  fun w =>
    let (w', o) := m (fst w, []) in
    ((fst w', snd w ++ map Turn (snd w')), o).

Notation "x <- c ;; k" := (pbind c (fun x => k))
  (at level 100, c at next level, right associativity).

(** [class LendingBotPipeline]: the attributes that are read after the
    constructor. *)
Record LendingBotPipeline : Type := mkPipeline {
  pl_registry : Tools.ToolRegistry;
  pl_assistant_id : string;
  pl_runner : AssistantRunner Σ;
}.

Variable backend : Backend Σ.

(** [file_path.exists()] *)
Definition exists_ (path : string) : PM bool :=
  fun w => ((fst w, snd w ++ [PathExists path]),
            Returns (path_exists backend path (fst w))).

(** The [for] loop of [_index_temp_files], with the ids uploaded so far. *)
Fixpoint upload_loop (files : list string) (uploaded_ids : list string)
  : PM (list string) :=
  match files with
  | [] => pret uploaded_ids
  | p :: rest =>
      found <- exists_ p ;;
      if negb found then praise (FileNotFoundError p)
      else
        _ <- perform (Open p "rb") (open_file backend p "rb") ;;
        upload_id <- perform (FilesCreate p "assistants")
                       (files_create backend p "assistants") ;;
        upload_loop rest (uploaded_ids ++ [upload_id])
  end.

(** [while vs.status != "completed"], for at most [fuel] iterations. *)
Fixpoint wait_completed (fuel : nat) (vs : VectorStore) : PM VectorStore :=
  if negb (String.eqb (vs_status vs) "completed") then
    match fuel with
    | O => fun w => (w, OutOfFuel)
    | S fuel' =>
        vs' <- perform (VectorStoresRetrieve (vs_id vs))
                 (vector_stores_retrieve backend (vs_id vs)) ;;
        wait_completed fuel' vs'
    end
  else pret vs.

(** [LendingBotPipeline._index_temp_files] *)
Definition _index_temp_files (fuel : nat) (files : list string) : PM string :=
  uploaded_ids <- upload_loop files [] ;;
  vs <- perform (VectorStoresCreate "temp_vs" uploaded_ids)
          (vector_stores_create backend "temp_vs" uploaded_ids) ;;
  vs <- wait_completed fuel vs ;;
  pret (vs_id vs).

(** [LendingBotPipeline.__init__]. The client that the constructor builds
    from [api_key], [endpoint] and [api_version] is [backend]; an argument
    that is left out is [None] and takes its default. *)
Definition __init__ (fuel : nat) (api_key endpoint : string)
    (api_version model : option string)
    (vector_store_id : option string) (temp_files : option (list string))
  : PM LendingBotPipeline :=
  registry <- plift Tools.default ;;
  vector_store_id <-
    (if truthy_list temp_files
     then vs <- _index_temp_files fuel (default [] temp_files) ;; pret (Some vs)
     else pret vector_store_id) ;;
  let (registry, tools) := Tools.openai_tools registry in
  assistant <- perform
                 (AssistantsCreate "Lending Copilot"
                    (default "GPT4O_DEPLOYMENT" model) instructions tools
                    (tool_resources vector_store_id))
                 (assistants_create backend "Lending Copilot"
                    (default "GPT4O_DEPLOYMENT" model) instructions tools
                    (tool_resources vector_store_id)) ;;
  _ <- perform HaystackBuild (haystack_build backend) ;;
  pret {| pl_registry := registry;
          pl_assistant_id := assistant;
          pl_runner := {| assistant_id := assistant; client := beta backend |} |}.

(** [LendingBotPipeline.run] *)
Definition run (self : LendingBotPipeline) (fuel : nat) (prompt : string)
  : PM string :=
  _ <- perform (PipelineRun prompt) (pipeline_run backend prompt) ;;
  turn (Conversation.run (pl_runner self) fuel prompt None).

End Facade.

Arguments LendingBotPipeline : clear implicits.
Arguments PM : clear implicits.
Arguments pworld : clear implicits.

(** ** A scripted environment

    The local files that exist, the ids given to uploads, and the vector
    store objects answered to [create] and [retrieve], next to the
    scripted service of the runner. *)
Record pscript : Type := mkPscript {
  disk : list string;
  stores : list VectorStore;
  remote : script;
}.

Definition on_remote {A} (op : script -> script * result A)
  : pscript -> pscript * result A :=
  fun σ =>
    let (s', r) := op (remote σ) in
    ({| disk := disk σ; stores := stores σ; remote := s' |}, r).

Definition next_store (σ : pscript) : pscript * result VectorStore :=
  match stores σ with
  | [] => (σ, Raise (ClientError "APIConnectionError" "Connection error."))
  | vs :: rest => ({| disk := disk σ; stores := rest; remote := remote σ |}, Ok vs)
  end.

Definition scripted_backend : Backend pscript :=
  {| beta :=
       {| threads_create := on_remote (threads_create scripted);
          threads_retrieve := fun t => on_remote (threads_retrieve scripted t);
          messages_create := fun t r c => on_remote (messages_create scripted t r c);
          runs_create := fun a t s => on_remote (runs_create scripted a t s);
          runs_submit_tool_outputs :=
            fun r t o => on_remote (runs_submit_tool_outputs scripted r t o);
          runs_retrieve := fun r t => on_remote (runs_retrieve scripted r t);
          messages_list := fun t o => on_remote (messages_list scripted t o) |};
     path_exists := fun p σ => bool_decide (p ∈ disk σ);
     open_file := fun _ _ σ => (σ, Ok tt);
     files_create := fun p _ σ => (σ, Ok ("file-" +:+ p));
     vector_stores_create := fun _ _ σ => next_store σ;
     vector_stores_retrieve := fun _ σ => next_store σ;
     assistants_create := fun _ _ _ _ _ σ => (σ, Ok "asst_1");
     haystack_build := fun σ => (σ, Ok tt);
     pipeline_run := fun _ σ => (σ, Ok tt) |}.

(** An environment in which every file exists and every vector store
    stays [failed]. *)
Definition failing_backend : Backend unit :=
  {| beta := Notions.always_queued;
     path_exists := fun _ _ => true;
     open_file := fun _ _ σ => (σ, Ok tt);
     files_create := fun p _ σ => (σ, Ok ("file-" +:+ p));
     vector_stores_create := fun _ _ σ => (σ, Ok (mkVectorStore "vs_1" "failed"));
     vector_stores_retrieve := fun v σ => (σ, Ok (mkVectorStore v "failed"));
     assistants_create := fun _ _ _ _ _ σ => (σ, Ok "asst_1");
     haystack_build := fun σ => (σ, Ok tt);
     pipeline_run := fun _ σ => (σ, Ok tt) |}.

(** ** Observations on the effects of the pipeline *)

(** The environment answers the uploads of [files] one after the other,
    from the state [σ] to the state [σ']: each file exists, is opened and
    is uploaded, and [ids] are the ids that the uploads returned, in the
    order of the files. *)
Inductive uploaded {Σ : Type} (backend : Backend Σ)
  : Σ -> list string -> Σ -> list string -> Prop :=
| uploaded_nil σ :
    uploaded backend σ [] σ []
| uploaded_cons σ p σ1 σ2 upload_id files σ3 ids :
    path_exists backend p σ = true ->
    open_file backend p "rb" σ = (σ1, Ok tt) ->
    files_create backend p "assistants" σ1 = (σ2, Ok upload_id) ->
    uploaded backend σ2 files σ3 ids ->
    uploaded backend σ (p :: files) σ3 (upload_id :: ids).

(** The environment answers the retrievals of a vector store until one
    answer is [completed]: from the store [vs] in the state [σ] to the
    store [vs'] in the state [σ'], [polls] being the ids that were asked
    for, in order. *)
Inductive awaited {Σ : Type} (backend : Backend Σ)
  : Σ -> VectorStore -> Σ -> VectorStore -> list string -> Prop :=
| store_ready σ vs :
    vs_status vs = "completed" ->
    awaited backend σ vs σ vs []
| store_retrieved σ vs σ1 vs1 σ2 vs2 polls :
    vs_status vs <> "completed" ->
    vector_stores_retrieve backend (vs_id vs) σ = (σ1, Ok vs1) ->
    awaited backend σ1 vs1 σ2 vs2 polls ->
    awaited backend σ vs σ2 vs2 (vs_id vs :: polls).



End Pipeline.


(* ===================================================================== *)
(** * Properties of the tool registry                                     *)
(* ===================================================================== *)

Module RegistryFacts.
Import Tools.

Lemma builtin_names_spec (tag : string) :
  tag ∈ builtin_names <-> tag = "code_interpreter" \/ tag = "file_search".
Proof. unfold builtin_names. set_solver. Qed.

Lemma add_builtin_known (tag : string) (reg : ToolRegistry) :
  tag ∈ builtin_names ->
  add_builtin tag reg
  = ({| _tools := _tools reg ++ [Dict [("type", JStr tag)]] |}, Ok tt).
Proof.
  intros Hin. unfold add_builtin.
  case_bool_decide as Hnot; [contradiction | reflexivity].
Qed.

Lemma add_builtin_unknown (tag : string) (reg : ToolRegistry) :
  tag ∉ builtin_names ->
  add_builtin tag reg
  = (reg, Raise (ValueError ("Unknown built‑in tool: " +:+ tag))).
Proof.
  intros Hnot. unfold add_builtin.
  case_bool_decide as Hdec; [reflexivity | contradiction].
Qed.

(** The loop of [openai_tools] from any payload built so far. *)
Lemma payload_loop {A B} (f : A -> B) (l : list A) (acc : list B) :
  fold_left (fun payload t => payload ++ [f t]) l acc = acc ++ map f l.
Proof.
  revert acc. induction l as [|t l IH]; intros acc; simpl.
  - by rewrite app_nil_r.
  - rewrite IH. by rewrite <- app_assoc.
Qed.

Lemma openai_tools_map (reg : ToolRegistry) :
  snd (openai_tools reg)
  = map (fun t => match t with Dict d => d | Schema s => to_openai_dict s end)
        (_tools reg).
Proof. unfold openai_tools. simpl. by rewrite payload_loop. Qed.

Lemma default_is_standard : default = Ok standard_toolset.
Proof. reflexivity. Qed.

Lemma custom_names_app (l1 l2 : list entry) :
  custom_names {| _tools := l1 ++ l2 |}
  = custom_names {| _tools := l1 |} ++ custom_names {| _tools := l2 |}.
Proof. unfold custom_names. simpl. apply omap_app. Qed.

(** C7. A tag outside [{code_interpreter, file_search}] makes [add_builtin]
    raise ([ValueError], with the tag in its message) and leaves the
    registry as it was; a tag of the set makes it succeed and append the
    one-key dict [{"type": tag}]. [add_builtin] is a function of the tag and
    the registry alone: no client and no state of the remote service occur
    in its type, so no request is sent either way. *)
Theorem add_builtin_closed_set (tag : string) (reg : ToolRegistry) :
  (tag <> "code_interpreter" -> tag <> "file_search" ->
     add_builtin tag reg
     = (reg, Raise (ValueError ("Unknown built‑in tool: " +:+ tag))))
  /\ (tag = "code_interpreter" \/ tag = "file_search" ->
     add_builtin tag reg
     = ({| _tools := _tools reg ++ [Dict [("type", JStr tag)]] |}, Ok tt)).
Proof.
  split.
  - intros H1 H2. apply add_builtin_unknown.
    rewrite builtin_names_spec. intros [?|?]; contradiction.
  - intros H. apply add_builtin_known. by apply builtin_names_spec.
Qed.

Lemma add_builtin_closed_set_witness :
  add_builtin "bing_search" init
  = (init, Raise (ValueError ("Unknown built‑in tool: " +:+ "bing_search")))
  /\ add_builtin "file_search" init
     = ({| _tools := _tools init ++ [Dict [("type", JStr "file_search")]] |}, Ok tt).
Proof.
  split.
  - apply (proj1 (add_builtin_closed_set "bing_search" init)); discriminate.
  - apply (proj2 (add_builtin_closed_set "file_search" init)). right. reflexivity.
Defined.

(** C9. [openai_tools] observes the registry without changing it: the
    registry after the call is the registry before it, a second call
    returns the same list, the list has one descriptor per entry, at the
    position of the entry, and a later registration adds its descriptor at
    the end. *)
Theorem openai_tools_observation (reg : ToolRegistry) :
  fst (openai_tools reg) = reg
  /\ snd (openai_tools (fst (openai_tools reg))) = snd (openai_tools reg)
  /\ length (snd (openai_tools reg)) = length (_tools reg)
  /\ (forall i : nat,
        snd (openai_tools reg) !! i
        = (fun t => match t with Dict d => d | Schema s => to_openai_dict s end)
            <$> (_tools reg !! i))
  /\ (forall schema,
        snd (openai_tools (fst (add_function schema reg)))
        = snd (openai_tools reg) ++ [to_openai_dict schema])
  /\ (forall tag, tag ∈ builtin_names ->
        snd (openai_tools (fst (add_builtin tag reg)))
        = snd (openai_tools reg) ++ [[("type", JStr tag)]]).
Proof.
  repeat split.
  - by rewrite openai_tools_map, length_map.
  - intros i. by rewrite openai_tools_map, list_lookup_fmap.
  - intros schema. rewrite !openai_tools_map. simpl. by rewrite map_app.
  - intros tag Hin. rewrite add_builtin_known by done.
    rewrite !openai_tools_map. simpl. by rewrite map_app.
Qed.

Lemma openai_tools_observation_witness :
  snd (openai_tools (fst (add_builtin "code_interpreter" standard_toolset)))
  = snd (openai_tools standard_toolset) ++ [[("type", JStr "code_interpreter")]].
Proof.
  apply (proj2 (proj2 (proj2 (proj2 (proj2
           (openai_tools_observation standard_toolset)))))).
  vm_compute. reflexivity.
Defined.

(** C10. Every registry built from the constructor by [add_builtin] and
    [add_function], or returned by the factory, has only one-key [type]
    dicts with a tag of the closed set as its built-in entries; and the
    factory returns exactly five entries: [code_interpreter],
    [file_search], then the schemas of [webSearch], [getRateSheet] and
    [createLoanDoc]. *)
Theorem registry_invariant :
  (forall reg, reachable reg -> Forall builtin_entry_ok (_tools reg))
  /\ default = Ok standard_toolset
  /\ length (_tools standard_toolset) = 5.
Proof.
  assert (Hstd : Forall builtin_entry_ok (_tools standard_toolset)).
  { repeat constructor; eexists; (split; [reflexivity | ]);
      apply builtin_names_spec; auto. }
  split; [| split; reflexivity].
  intros reg Hreach. induction Hreach as [|tag reg _ IH|schema reg _ IH|reg Hdef].
  - constructor.
  - destruct (decide (tag ∈ builtin_names)) as [Hin|Hnot].
    + rewrite add_builtin_known by done. simpl.
      apply Forall_app. split; [exact IH|].
      repeat constructor. by exists tag.
    + by rewrite add_builtin_unknown.
  - simpl. apply Forall_app. split; [exact IH|]. by repeat constructor.
  - rewrite default_is_standard in Hdef. by injection Hdef as <-.
Qed.

Lemma registry_invariant_witness :
  Forall builtin_entry_ok
    (_tools (fst (add_function getRateSheet_schema
                    (fst (add_builtin "file_search" init))))).
Proof.
  apply (proj1 registry_invariant).
  apply reach_add_function, reach_add_builtin, reach_init.
Defined.

(** C4, as the code has it. [add_function] makes no check of the name: for
    a schema whose name is already that of a registered custom tool it
    returns normally and appends the schema, so that the name is registered
    twice. *)
Theorem add_function_keeps_duplicates (reg : ToolRegistry) (schema : ToolSchema) :
  name schema ∈ custom_names reg ->
  add_function schema reg
  = ({| _tools := _tools reg ++ [Schema schema] |}, Ok tt)
  /\ custom_names (fst (add_function schema reg))
     = custom_names reg ++ [name schema]
  /\ ~ NoDup (custom_names (fst (add_function schema reg))).
Proof.
  intros Hin.
  assert (Hnames : custom_names (fst (add_function schema reg))
                   = custom_names reg ++ [name schema]).
  { simpl. rewrite custom_names_app. by destruct reg. }
  split; [reflexivity | split; [exact Hnames|]].
  rewrite Hnames. intros Hnodup. apply NoDup_app in Hnodup as (_ & Hfresh & _).
  apply (Hfresh _ Hin). by apply list_elem_of_singleton.
Qed.

Lemma add_function_keeps_duplicates_witness :
  add_function webSearch_schema standard_toolset
  = ({| _tools := _tools standard_toolset ++ [Schema webSearch_schema] |}, Ok tt)
  /\ custom_names (fst (add_function webSearch_schema standard_toolset))
     = custom_names standard_toolset ++ ["webSearch"]
  /\ ~ NoDup (custom_names (fst (add_function webSearch_schema standard_toolset))).
Proof.
  apply (add_function_keeps_duplicates standard_toolset webSearch_schema).
  vm_compute. apply list_elem_of_here.
Defined.

(** C4, as the specification has it, fails: registering [webSearch] a second
    time in the factory's registry returns normally and the registry has
    changed. *)
Lemma add_function_duplicate_accepted :
  "webSearch" ∈ custom_names standard_toolset
  /\ snd (add_function webSearch_schema standard_toolset) = Ok tt
  /\ fst (add_function webSearch_schema standard_toolset) <> standard_toolset.
Proof.
  split; [vm_compute; apply list_elem_of_here|].
  split; [reflexivity|].
  intros Heq. apply (f_equal (fun r => length (_tools r))) in Heq.
  discriminate Heq.
Qed.

End RegistryFacts.

(* ===================================================================== *)
(** * Properties of the tool dispatcher                                   *)
(* ===================================================================== *)

Module DispatcherFacts.
Import Conversation.
Local Open Scope result_scope.

(** *** Binding of keyword mappings *)

Lemma unexpected_keyword_binds required optional args :
  binds required optional args = true ->
  unexpected_keyword (required ++ optional) args = false.
Proof.
  unfold binds, unexpected_keyword. intros [Hdom _]%andb_true_iff.
  apply bool_decide_eq_true in Hdom. apply bool_decide_eq_false. tauto.
Qed.

Lemma unexpected_keyword_not_binds required optional args :
  unexpected_keyword (required ++ optional) args = true ->
  binds required optional args = false.
Proof.
  unfold binds, unexpected_keyword. intros Hdom%bool_decide_eq_true.
  apply andb_false_iff. left. by apply bool_decide_eq_false.
Qed.

Lemma binds_required required optional args p :
  binds required optional args = true -> p ∈ required -> is_Some (args !! p).
Proof.
  unfold binds. intros [_ Hreq]%andb_true_iff Hp.
  rewrite forallb_forall in Hreq. apply list_elem_of_In in Hp.
  by apply Hreq, bool_decide_eq_true in Hp.
Qed.

Lemma binds_missing required optional args p :
  p ∈ required -> args !! p = None -> binds required optional args = false.
Proof.
  intros Hp Hnone. destruct (binds required optional args) eqn:Hb; [|done].
  destruct (binds_required _ _ _ _ Hb Hp) as [v Hv]. congruence.
Qed.

Lemma binds_intro required optional args :
  unexpected_keyword (required ++ optional) args = false ->
  Forall (fun p => is_Some (args !! p)) required ->
  binds required optional args = true.
Proof.
  unfold binds, unexpected_keyword. intros Hdom%bool_decide_eq_false Hreq.
  apply andb_true_iff. split.
  - apply bool_decide_eq_true. by destruct (decide (dom args ⊆ list_to_set (required ++ optional))).
  - apply forallb_forall. intros p Hp%list_elem_of_In.
    apply bool_decide_eq_true. by eapply Forall_forall in Hreq.
Qed.

(** Each call either returns or raises [TypeError], according to [binds]. *)
Lemma call_web_search_spec args :
  if binds ["query"] ["freshness_days"] args
  then exists out, call_web_search args = Ok out
  else call_web_search args = Raise TypeError.
Proof.
  unfold call_web_search.
  destruct (unexpected_keyword ["query"; "freshness_days"] args) eqn:Hkw.
  { by rewrite (unexpected_keyword_not_binds ["query"] ["freshness_days"]). }
  destruct (args !! "query") as [q|] eqn:Hq.
  - rewrite binds_intro; [by eexists | done |]. repeat constructor. by rewrite Hq.
  - rewrite (binds_missing _ _ _ "query"); [done | set_solver | done].
Qed.

Lemma call_get_rate_sheet_spec args :
  if binds ["loanType"; "fico"; "ltv"] [] args
  then exists out, call_get_rate_sheet args = Ok out
  else call_get_rate_sheet args = Raise TypeError.
Proof.
  unfold call_get_rate_sheet.
  destruct (unexpected_keyword ["loanType"; "fico"; "ltv"] args) eqn:Hkw.
  { by rewrite (unexpected_keyword_not_binds ["loanType"; "fico"; "ltv"] []). }
  destruct (args !! "loanType") as [a|] eqn:Ha;
    [| rewrite (binds_missing _ _ _ "loanType"); [done | set_solver | done]].
  destruct (args !! "fico") as [b|] eqn:Hb;
    [| rewrite (binds_missing _ _ _ "fico"); [done | set_solver | done]].
  destruct (args !! "ltv") as [c|] eqn:Hc;
    [| rewrite (binds_missing _ _ _ "ltv"); [done | set_solver | done]].
  rewrite binds_intro; [by eexists | done |].
  repeat constructor; by rewrite ?Ha, ?Hb, ?Hc.
Qed.

Lemma call_create_loan_doc_spec args :
  if binds ["borrowerId"; "templateId"] [] args
  then exists out, call_create_loan_doc args = Ok out
  else call_create_loan_doc args = Raise TypeError.
Proof.
  unfold call_create_loan_doc.
  destruct (unexpected_keyword ["borrowerId"; "templateId"] args) eqn:Hkw.
  { by rewrite (unexpected_keyword_not_binds ["borrowerId"; "templateId"] []). }
  destruct (args !! "borrowerId") as [a|] eqn:Ha;
    [| rewrite (binds_missing _ _ _ "borrowerId"); [done | set_solver | done]].
  destruct (args !! "templateId") as [b|] eqn:Hb;
    [| rewrite (binds_missing _ _ _ "templateId"); [done | set_solver | done]].
  rewrite binds_intro; [by eexists | done |].
  repeat constructor; by rewrite ?Ha, ?Hb.
Qed.

(** *** One call *)

Lemma handle_call_spec (call : ToolCall) :
  if well_called call
  then exists out,
         handle_call call = Ok {| tool_call_id := call_id call; output := out |}
  else handle_call call = Raise TypeError.
Proof.
  unfold handle_call, well_called.
  destruct (String.eqb _ "webSearch").
  { pose proof (call_web_search_spec (fn_arguments (call_function call))) as H.
    destruct (binds _ _ _); [destruct H as [out ->]; by eexists | by rewrite H]. }
  destruct (String.eqb _ "getRateSheet").
  { pose proof (call_get_rate_sheet_spec (fn_arguments (call_function call))) as H.
    destruct (binds _ _ _); [destruct H as [out ->]; by eexists | by rewrite H]. }
  destruct (String.eqb _ "createLoanDoc").
  { pose proof (call_create_loan_doc_spec (fn_arguments (call_function call))) as H.
    destruct (binds _ _ _); [destruct H as [out ->]; by eexists | by rewrite H]. }
  by eexists.
Qed.

Lemma handle_call_ok (call : ToolCall) (o : ToolOutput) :
  handle_call call = Ok o -> well_called call = true /\ tool_call_id o = call_id call.
Proof.
  intros Ho. pose proof (handle_call_spec call) as H.
  destruct (well_called call); [|congruence].
  destruct H as [out H]. rewrite H in Ho. by injection Ho as <-.
Qed.

Lemma handle_call_raise (call : ToolCall) :
  well_called call = false -> handle_call call = Raise TypeError.
Proof. intros Hw. pose proof (handle_call_spec call) as H. by rewrite Hw in H. Qed.

Lemma handle_call_unknown (call : ToolCall) :
  fn_name (call_function call) <> "webSearch" ->
  fn_name (call_function call) <> "getRateSheet" ->
  fn_name (call_function call) <> "createLoanDoc" ->
  handle_call call
  = Ok {| tool_call_id := call_id call;
          output := "Unknown tool " +:+ fn_name (call_function call) |}.
Proof.
  intros H1%String.eqb_neq H2%String.eqb_neq H3%String.eqb_neq.
  unfold handle_call. by rewrite H1, H2, H3.
Qed.

Lemma tool_raises_spec (call : ToolCall) (e : exn) :
  tool_raises call e -> well_called call = false /\ e = TypeError.
Proof.
  unfold tool_raises, well_called.
  intros [[Hn He]|[[Hn He]|[Hn He]]]; rewrite Hn; simpl.
  - pose proof (call_web_search_spec (fn_arguments (call_function call))) as H.
    destruct (binds _ _ _); [destruct H; congruence | split; congruence].
  - pose proof (call_get_rate_sheet_spec (fn_arguments (call_function call))) as H.
    destruct (binds _ _ _); [destruct H; congruence | split; congruence].
  - pose proof (call_create_loan_doc_spec (fn_arguments (call_function call))) as H.
    destruct (binds _ _ _); [destruct H; congruence | split; congruence].
Qed.

(** *** The loop *)

Lemma handle_loop_app (l1 l2 : list ToolCall) (outputs : list ToolOutput) :
  handle_loop (l1 ++ l2) outputs
  = (outs <~ handle_loop l1 outputs ;; handle_loop l2 outs).
Proof.
  revert outputs. induction l1 as [|c l1 IH]; intros outputs; simpl; [done|].
  destruct (handle_call c); simpl; [apply IH | done].
Qed.

Lemma handle_loop_returns (tool_calls : list ToolCall) (outputs : list ToolOutput) :
  Forall (fun c => well_called c = true) tool_calls ->
  exists outs,
    handle_loop tool_calls outputs = Ok (outputs ++ outs)
    /\ Forall2 (fun c o => handle_call c = Ok o) tool_calls outs.
Proof.
  intros Hall. revert outputs.
  induction Hall as [|c l Hc _ IH]; intros outputs; simpl.
  - exists []. by rewrite app_nil_r.
  - pose proof (handle_call_spec c) as H. rewrite Hc in H. destruct H as [out H].
    rewrite H. simpl. destruct (IH (outputs ++ [{| tool_call_id := call_id c; output := out |}]))
      as (outs & -> & Hf).
    eexists (_ :: outs). split; [by rewrite <- app_assoc | by constructor].
Qed.

Lemma handle_loop_inv (tool_calls : list ToolCall) (outputs res : list ToolOutput) :
  handle_loop tool_calls outputs = Ok res ->
  exists outs,
    res = outputs ++ outs
    /\ Forall2 (fun c o => handle_call c = Ok o) tool_calls outs.
Proof.
  revert outputs. induction tool_calls as [|c l IH]; intros outputs; simpl.
  - intros [= <-]. exists []. by rewrite app_nil_r.
  - destruct (handle_call c) as [o|e] eqn:Hc; simpl; [|done].
    intros (outs & -> & Hf)%IH. exists (o :: outs).
    split; [by rewrite <- app_assoc | by constructor].
Qed.

Lemma handle_loop_raises (tool_calls : list ToolCall) (outputs : list ToolOutput) :
  Exists (fun c => well_called c = false) tool_calls ->
  handle_loop tool_calls outputs = Raise TypeError.
Proof.
  intros Hex. revert outputs.
  induction Hex as [c l Hc|c l _ IH]; intros outputs; simpl.
  - by rewrite handle_call_raise.
  - pose proof (handle_call_spec c) as H.
    destruct (well_called c); [destruct H as [out ->]; apply IH | by rewrite H].
Qed.

Lemma outputs_follow_calls (tool_calls : list ToolCall) (outs : list ToolOutput) :
  Forall2 (fun c o => handle_call c = Ok o) tool_calls outs ->
  map tool_call_id outs = map call_id tool_calls
  /\ Forall (fun c => well_called c = true) tool_calls.
Proof.
  induction 1 as [|c o l outs Hc _ [IH1 IH2]]; simpl; [done|].
  apply handle_call_ok in Hc as [Hw Hid]. split; [congruence | by constructor].
Qed.

(** *** The claims on [handle_step] *)

(** C1, as the code has it. For a run whose required action carries a batch
    of tool calls, [handle_step] returns a list exactly when the keyword
    mapping of every call that names a known tool binds to the parameters
    of that tool; whenever it returns, the list has one result per call, in
    the order of the calls, the [tool_call_id] of the i-th result being the
    id of the i-th call; and otherwise, when the mapping of some call does
    not bind, [handle_step] raises [TypeError] and returns no list. *)
Theorem handle_step_one_result_per_call (run_obj : Run) (tool_calls : list ToolCall) :
  required_action run_obj = Some tool_calls ->
  (Forall (fun c => well_called c = true) tool_calls
   <-> exists outputs, handle_step run_obj = Ok outputs)
  /\ (forall outputs, handle_step run_obj = Ok outputs ->
        length outputs = length tool_calls
        /\ map tool_call_id outputs = map call_id tool_calls
        /\ (forall (i : nat) call, tool_calls !! i = Some call ->
              exists o, outputs !! i = Some o
                        /\ tool_call_id o = call_id call
                        /\ handle_call call = Ok o))
  /\ (Exists (fun c => well_called c = false) tool_calls ->
      handle_step run_obj = Raise TypeError).
Proof.
  intros Hra. unfold handle_step. rewrite Hra.
  assert (Hinv : forall outputs, handle_loop tool_calls [] = Ok outputs ->
                 Forall2 (fun c o => handle_call c = Ok o) tool_calls outputs).
  { intros outputs (outs & -> & Hf)%handle_loop_inv. exact Hf. }
  split; [split|split].
  - intros Hall. destruct (handle_loop_returns tool_calls [] Hall) as (outs & H & _).
    by exists outs.
  - intros [outputs H%Hinv]. by apply outputs_follow_calls in H as [_ H].
  - intros outputs Hf%Hinv. split; [symmetry; by eapply Forall2_length|].
    split; [by apply outputs_follow_calls in Hf as [Hids _]|].
    intros i call Hi.
    destruct (Forall2_lookup_l _ _ _ _ _ Hf Hi) as (o & Ho & Hc).
    pose proof (handle_call_ok _ _ Hc) as [_ Hid]. by exists o.
  - intros Hex. by apply handle_loop_raises.
Qed.

Lemma handle_step_one_result_per_call_witness :
  (exists outputs, handle_step (awaiting [rate_call; unknown_call]) = Ok outputs)
  /\ handle_step (awaiting [rate_call; search_call_extra; unknown_call])
     = Raise TypeError.
Proof.
  split.
  - apply (proj1 (handle_step_one_result_per_call
                    (awaiting [rate_call; unknown_call]) [rate_call; unknown_call]
                    eq_refl)).
    repeat constructor.
  - apply (proj2 (proj2 (handle_step_one_result_per_call
                           (awaiting [rate_call; search_call_extra; unknown_call])
                           [rate_call; search_call_extra; unknown_call] eq_refl))).
    apply Exists_cons_tl, Exists_cons_hd. vm_compute. reflexivity.
Defined.

(** C1, as the specification has it, fails: on a batch of one [webSearch]
    call whose mapping has a key that is no parameter of [web_search],
    [handle_step] raises [TypeError] and returns no result at all. *)
Lemma handle_step_extra_keyword_raises :
  required_action (awaiting [search_call_extra]) = Some [search_call_extra]
  /\ handle_step (awaiting [search_call_extra]) = Raise TypeError
  /\ ~ (exists outputs,
          handle_step (awaiting [search_call_extra]) = Ok outputs
          /\ length outputs = 1).
Proof.
  assert (H : handle_step (awaiting [search_call_extra]) = Raise TypeError)
    by (vm_compute; reflexivity).
  split; [reflexivity | split; [exact H|]].
  intros (outputs & Hok & _). rewrite H in Hok. discriminate Hok.
Qed.

(** C2, as the code has it. [handle_step] has no handler: when the callable
    of some call of the batch raises (the mock tools raise only when the
    keyword mapping does not bind, and then [TypeError]), [handle_step]
    raises that [TypeError] itself, and returns no result, neither for the
    faulty call nor for the others. *)
Theorem handle_step_propagates (run_obj : Run) (tool_calls : list ToolCall) :
  required_action run_obj = Some tool_calls ->
  Exists (fun c => exists e, tool_raises c e) tool_calls ->
  handle_step run_obj = Raise TypeError
  /\ (forall outputs, handle_step run_obj <> Ok outputs).
Proof.
  intros Hra Hex. unfold handle_step. rewrite Hra.
  assert (H : handle_loop tool_calls [] = Raise TypeError).
  { apply handle_loop_raises. eapply Exists_impl; [exact Hex|].
    intros c [e He]. by apply tool_raises_spec in He as [? _]. }
  rewrite H. by split.
Qed.

Lemma handle_step_propagates_witness :
  handle_step (awaiting [rate_call; search_call_missing; unknown_call])
  = Raise TypeError
  /\ (forall outputs,
        handle_step (awaiting [rate_call; search_call_missing; unknown_call])
        <> Ok outputs).
Proof.
  apply (handle_step_propagates
           (awaiting [rate_call; search_call_missing; unknown_call])
           [rate_call; search_call_missing; unknown_call] eq_refl).
  apply Exists_cons_tl, Exists_cons_hd. exists TypeError. left.
  split; vm_compute; reflexivity.
Defined.

(** C2, as the specification has it, fails: [web_search] called without its
    [query] raises, and [handle_step] on a batch with that call raises too
    instead of returning three results. *)
Lemma handle_step_raising_tool_aborts :
  tool_raises search_call_missing TypeError
  /\ handle_step (awaiting [rate_call; search_call_missing; unknown_call])
     = Raise TypeError.
Proof.
  split; [left; split|]; vm_compute; reflexivity.
Qed.

(** The exception of the loop is that of one of the calls. *)
Lemma handle_loop_raise_inv (tool_calls : list ToolCall) (outputs : list ToolOutput)
    (e : exn) :
  handle_loop tool_calls outputs = Raise e ->
  Exists (fun c => handle_call c = Raise e) tool_calls.
Proof.
  revert outputs. induction tool_calls as [|c l IH]; intros outputs; simpl; [done|].
  destruct (handle_call c) as [o|e'] eqn:Hc; simpl.
  - intros H%IH. by apply Exists_cons_tl.
  - intros [= ->]. by apply Exists_cons_hd.
Qed.

(** The loop on calls of unknown tools only. *)
Lemma handle_loop_unknown (tool_calls : list ToolCall) (outputs : list ToolOutput) :
  Forall (fun c => fn_name (call_function c) <> "webSearch"
                   /\ fn_name (call_function c) <> "getRateSheet"
                   /\ fn_name (call_function c) <> "createLoanDoc")
         tool_calls ->
  handle_loop tool_calls outputs
  = Ok (outputs
        ++ map (fun c => {| tool_call_id := call_id c;
                            output := "Unknown tool " +:+ fn_name (call_function c) |})
               tool_calls).
Proof.
  intros Hall. revert outputs.
  induction Hall as [|c l (Hc1 & Hc2 & Hc3) _ IH]; intros outputs; simpl.
  - by rewrite app_nil_r.
  - rewrite (handle_call_unknown c Hc1 Hc2 Hc3). simpl.
    rewrite IH. by rewrite <- app_assoc.
Qed.

(** C6. A call whose tool name is none of [webSearch], [getRateSheet] and
    [createLoanDoc] does not raise: its result is the id of the call with
    the output [Unknown tool <name>]. The loop goes on with the calls after
    it, so that the result of [handle_step] is that of the calls before,
    this result, and that of the calls after; when [handle_step] returns,
    the result is at the position of the call. When the arguments of the
    other calls of the batch bind, [handle_step] returns the results of the
    calls before, this result and the results of the calls after; a batch
    of unknown tools only always returns, one marked result per call; and
    when [handle_step] raises, the exception is that of another call of the
    batch. *)
Theorem unknown_tool_reported (call : ToolCall) :
  fn_name (call_function call) <> "webSearch" ->
  fn_name (call_function call) <> "getRateSheet" ->
  fn_name (call_function call) <> "createLoanDoc" ->
  let reported :=
    {| tool_call_id := call_id call;
       output := "Unknown tool " +:+ fn_name (call_function call) |} in
  handle_call call = Ok reported
  /\ (forall run_obj before after,
        required_action run_obj = Some (before ++ call :: after) ->
        handle_step run_obj
        = (outs <~ handle_loop before [] ;; handle_loop after (outs ++ [reported])))
  /\ (forall run_obj before after outputs,
        required_action run_obj = Some (before ++ call :: after) ->
        handle_step run_obj = Ok outputs ->
        outputs !! length before = Some reported)
  /\ (forall run_obj before after,
        required_action run_obj = Some (before ++ call :: after) ->
        Forall (fun c => well_called c = true) (before ++ after) ->
        exists outs_before outs_after,
          handle_step run_obj = Ok (outs_before ++ reported :: outs_after)
          /\ Forall2 (fun c o => handle_call c = Ok o) before outs_before
          /\ Forall2 (fun c o => handle_call c = Ok o) after outs_after)
  /\ (forall run_obj before after e,
        required_action run_obj = Some (before ++ call :: after) ->
        handle_step run_obj = Raise e ->
        Exists (fun c => handle_call c = Raise e) (before ++ after))
  /\ (forall run_obj tool_calls,
        required_action run_obj = Some tool_calls ->
        Forall (fun c => fn_name (call_function c) <> "webSearch"
                         /\ fn_name (call_function c) <> "getRateSheet"
                         /\ fn_name (call_function c) <> "createLoanDoc")
               tool_calls ->
        handle_step run_obj
        = Ok (map (fun c => {| tool_call_id := call_id c;
                               output := "Unknown tool "
                                         +:+ fn_name (call_function c) |})
                  tool_calls)).
Proof.
  intros H1 H2 H3 reported.
  assert (Hcall : handle_call call = Ok reported) by by apply handle_call_unknown.
  split; [exact Hcall|]. split; [|split; [|split; [|split]]].
  - intros run_obj before after Hra. unfold handle_step. rewrite Hra.
    rewrite handle_loop_app. destruct (handle_loop before []); simpl; [|done].
    by rewrite Hcall.
  - intros run_obj before after outputs Hra. unfold handle_step. rewrite Hra.
    intros (outs & -> & Hf)%handle_loop_inv. simpl.
    apply Forall2_app_inv_l in Hf as (o1 & o2 & Hf1 & Hf2 & ->).
    inversion Hf2 as [|? o ? o2' Ho _]; subst.
    rewrite (Forall2_length _ _ _ Hf1). rewrite list_lookup_middle by done.
    congruence.
  - intros run_obj before after Hra Hall. unfold handle_step. rewrite Hra.
    apply Forall_app in Hall as [Hb Ha].
    assert (Hall : Forall (fun c => well_called c = true) (before ++ call :: after)).
    { apply Forall_app. split; [done|]. constructor; [|done].
      by apply handle_call_ok in Hcall as [? _]. }
    destruct (handle_loop_returns _ [] Hall) as (outs & Hok & Hf).
    apply Forall2_app_inv_l in Hf as (o1 & o2 & Hf1 & Hf2 & ->).
    inversion Hf2 as [|? o ? o2' Ho Hf3]; subst.
    exists o1, o2'. rewrite Hok. simpl. split; [|done].
    do 3 f_equal. congruence.
  - intros run_obj before after e Hra. unfold handle_step. rewrite Hra.
    intros Hex%handle_loop_raise_inv.
    apply Exists_app in Hex as [Hex|Hex]; [apply Exists_app; by left|].
    apply Exists_cons in Hex as [Hex|Hex]; [congruence|].
    apply Exists_app. by right.
  - intros run_obj tool_calls Hra Hall. unfold handle_step. rewrite Hra.
    by apply (handle_loop_unknown tool_calls []).
Qed.

Lemma unknown_tool_reported_witness :
  handle_call unknown_call
  = Ok {| tool_call_id := "call_4"; output := "Unknown tool sendEmail" |}
  /\ (exists outs_before outs_after,
        handle_step (awaiting ([rate_call] ++ unknown_call :: [rate_call]))
        = Ok (outs_before
              ++ {| tool_call_id := "call_4"; output := "Unknown tool sendEmail" |}
                 :: outs_after)
        /\ Forall2 (fun c o => handle_call c = Ok o) [rate_call] outs_before
        /\ Forall2 (fun c o => handle_call c = Ok o) [rate_call] outs_after)
  /\ handle_step (awaiting [unknown_call; unknown_call])
     = Ok [ {| tool_call_id := "call_4"; output := "Unknown tool sendEmail" |};
            {| tool_call_id := "call_4"; output := "Unknown tool sendEmail" |} ].
Proof.
  split; [|split].
  - apply (unknown_tool_reported unknown_call); discriminate.
  - apply (proj1 (proj2 (proj2 (proj2
             (unknown_tool_reported unknown_call
                ltac:(discriminate) ltac:(discriminate) ltac:(discriminate)))))
             (awaiting ([rate_call] ++ unknown_call :: [rate_call]))
             [rate_call] [rate_call] eq_refl).
    repeat constructor.
  - apply (proj2 (proj2 (proj2 (proj2 (proj2
             (unknown_tool_reported unknown_call
                ltac:(discriminate) ltac:(discriminate) ltac:(discriminate))))))
             (awaiting [unknown_call; unknown_call])
             [unknown_call; unknown_call] eq_refl).
    repeat constructor; discriminate.
Defined.

End DispatcherFacts.

(* ===================================================================== *)
(** * Properties of the assistant runner                                  *)
(* ===================================================================== *)

Module RunnerFacts.
Import Conversation.

Lemma polling_statuses_spec (s : string) :
  s ∈ polling_statuses
  <-> s = "queued" \/ s = "in_progress" \/ s = "requires_action".
Proof.
  unfold polling_statuses. rewrite !elem_of_union, !elem_of_singleton. tauto.
Qed.

Section WithRunner.
Context {Σ : Type} (self : AssistantRunner Σ).

(** On a status outside the set the loop returns the run object in hand
    and leaves the world as it is. *)
Lemma poll_loop_exit fuel thread run w :
  status run ∉ polling_statuses ->
  poll_loop self fuel thread run w = (w, Returns run).
Proof.
  intros Hout. destruct fuel; simpl;
    by rewrite bool_decide_eq_false_2 by done.
Qed.

(** On a status of the set the loop runs its body once and goes on. *)
Lemma poll_loop_continue fuel thread run :
  status run ∈ polling_statuses ->
  poll_loop self (S fuel) thread run
  = bind (poll_step self thread run) (poll_loop self fuel thread).
Proof. intros Hin. simpl. by rewrite bool_decide_eq_true_2 by done. Qed.


(** The requests of one iteration. *)
Lemma poll_step_waits thread run w :
  status run <> "requires_action" ->
  poll_step self thread run w
  = let (σ', r) := runs_retrieve (client self) (run_id run) (th_id thread) (fst w) in
    ((σ', snd w ++ [Sleep 750; RunsRetrieve (run_id run) (th_id thread)]),
     of_result r).
Proof.
  intros Hs%String.eqb_neq. unfold poll_step. rewrite Hs.
  unfold bind, sleep, request. simpl.
  destruct (runs_retrieve _ _ _ _). by rewrite <- app_assoc.
Qed.

Lemma poll_step_submits thread run w outputs :
  status run = "requires_action" ->
  handle_step run = Ok outputs ->
  poll_step self thread run w
  = let (σ', r) := runs_submit_tool_outputs (client self) (run_id run)
                     (th_id thread) outputs (fst w) in
    ((σ', snd w ++ [SubmitToolOutputs (run_id run) (th_id thread) outputs]),
     of_result r).
Proof.
  intros Hs%String.eqb_eq Hout. unfold poll_step. rewrite Hs, Hout.
  unfold bind, lift, request. simpl. by destruct w.
Qed.

(** Steps 4 and 5 on a status outside the set: only the listing is left. *)
Lemma run_from_exit fuel thread run w :
  status run ∉ polling_statuses ->
  run_from self fuel thread run w = fetch_final self thread w.
Proof.
  intros Hout. unfold run_from, bind. by rewrite poll_loop_exit.
Qed.

Lemma fetch_final_spec thread w :
  fetch_final self thread w
  = let (σ', listed) := messages_list (client self) (th_id thread) "asc" (fst w) in
    ((σ', snd w ++ [MessagesList (th_id thread) "asc"]),
     match listed with
     | Ok data => of_result (final_text data)
     | Raise e => Raises e
     end).
Proof.
  unfold fetch_final, bind, request, lift.
  destruct (messages_list _ _ _ _) as [σ' [data|e]]; reflexivity.
Qed.

(** Steps 1 to 3 on a new thread, when the three requests are answered. *)
Lemma run_new_thread fuel user_message w σ1 σ2 σ3 thread r :
  threads_create (client self) (fst w) = (σ1, Ok thread) ->
  messages_create (client self) (th_id thread) "user" user_message σ1
  = (σ2, Ok tt) ->
  runs_create (client self) (assistant_id self) (th_id thread) false σ2
  = (σ3, Ok r) ->
  run self fuel user_message None w
  = run_from self fuel thread r
      (σ3, snd w ++ [ ThreadsCreate;
                      MessagesCreate (th_id thread) "user" user_message;
                      RunsCreate (assistant_id self) (th_id thread) false ]).
Proof.
  intros H1 H2 H3. unfold run, bind at 1 2 3, request. simpl.
  rewrite H1. simpl. rewrite H2. simpl. rewrite H3. simpl.
  by rewrite <- !app_assoc.
Qed.

End WithRunner.

Lemma final_text_empty : final_text [] = Raise IndexError.
Proof. reflexivity. Qed.

Lemma final_text_last front m value rest :
  content m = TextBlock value :: rest ->
  final_text (front ++ [m]) = Ok value.
Proof. intros Hm. unfold final_text. by rewrite last_snoc, Hm. Qed.

Lemma failure_status_exits (s : string) :
  s = "failed" \/ s = "cancelled" \/ s = "expired" -> s ∉ polling_statuses.
Proof.
  rewrite polling_statuses_spec. intros [-> | [-> | ->]] [? | [? | ?]]; discriminate.
Qed.

(** The simulated turn of the specification: the run is [queued], asks for
    the rate sheet, is [in_progress] and then [completed]. Four iterations
    are enough; there is one submission, of one output keyed by the id of
    the call, and the reply is the last message. *)
Example simulated_turn :
  run scripted_runner 4 "What is the rate today?" None
    ({| runs := [ polled "queued"; awaiting [rate_call];
                  polled "in_progress"; polled "completed" ];
        listing := [ text_message "What is the rate today?";
                     text_message "6.25% with 0.2 points" ] |}, [])
  = (({| runs := [];
         listing := [ text_message "What is the rate today?";
                      text_message "6.25% with 0.2 points" ] |},
      [ ThreadsCreate;
        MessagesCreate "thread_1" "user" "What is the rate today?";
        RunsCreate "asst_1" "thread_1" false;
        Sleep 750; RunsRetrieve "run_1" "thread_1";
        SubmitToolOutputs "run_1" "thread_1"
          [ {| tool_call_id := "call_1";
               output := get_rate_sheet (VStr "30yr_fixed") (VInt 740) (VFloat "0.8") |} ];
        Sleep 750; RunsRetrieve "run_1" "thread_1";
        MessagesList "thread_1" "asc" ]),
     Returns "6.25% with 0.2 points").
Proof. vm_compute. reflexivity. Qed.



(** C3, as the code has it. On a run object whose status is [failed],
    [cancelled] or [expired] the runner raises no error of its own: it
    leaves the loop without submitting tool outputs and without polling
    again, and goes on as for [completed]. The only request sent after the
    status was observed is the listing of the messages in ascending order;
    the result is the text of the last listed message, and an exception is
    raised only by the listing or by reading a missing message or text. *)
Theorem failed_run_read_like_completed {Σ : Type} (self : AssistantRunner Σ)
    (thread : Thread) (run : Run) (fuel : nat) (w : world Σ) :
  status run = "failed" \/ status run = "cancelled" \/ status run = "expired" ->
  snd (fst (run_from self fuel thread run w))
  = snd w ++ [MessagesList (th_id thread) "asc"]
  /\ (forall fuel' completed,
        status completed = "completed" ->
        run_from self fuel thread run w = run_from self fuel' thread completed w)
  /\ (forall σ' data,
        messages_list (client self) (th_id thread) "asc" (fst w) = (σ', Ok data) ->
        snd (run_from self fuel thread run w) = of_result (final_text data))
  /\ (forall e,
        snd (run_from self fuel thread run w) = Raises e ->
        (exists σ', messages_list (client self) (th_id thread) "asc" (fst w)
                    = (σ', Raise e))
        \/ e = IndexError \/ e = AttributeError).
Proof.
  intros Hs%failure_status_exits.
  rewrite run_from_exit by done. rewrite fetch_final_spec.
  split; [|split; [|split]].
  - by destruct (messages_list _ _ _ _).
  - intros fuel' completed Hc. rewrite run_from_exit, fetch_final_spec; [done|].
    rewrite polling_statuses_spec, Hc. intros [?|[?|?]]; discriminate.
  - intros σ' data ->. reflexivity.
  - intros e. destruct (messages_list _ _ _ _) as [σ' [data|e']]; simpl.
    + unfold final_text. destruct (last data) as [m|]; simpl.
      * destruct (content m) as [|[]]; simpl; intros [= <-]; auto.
      * intros [= <-]; auto.
    + intros [= <-]. left. by eexists.
Qed.

Lemma failed_run_read_like_completed_witness :
  snd (fst (run_from scripted_runner 0 (mkThread "thread_1") (polled "cancelled")
              ({| runs := []; listing := [text_message "hello"] |}, [])))
  = [MessagesList "thread_1" "asc"].
Proof.
  apply (failed_run_read_like_completed scripted_runner (mkThread "thread_1")
           (polled "cancelled") 0
           ({| runs := []; listing := [text_message "hello"] |}, [])).
  right. left. reflexivity.
Defined.

(** C3, as the specification has it, fails: when the service answers the
    creation of the run with status [failed], [run] raises nothing and
    returns the last message of the thread, here the one just posted. *)
Lemma failed_run_returns_last_message :
  run scripted_runner 0 "What is the rate today?" None
    ({| runs := [polled "failed"];
        listing := [text_message "What is the rate today?"] |}, [])
  = (({| runs := []; listing := [text_message "What is the rate today?"] |},
      [ ThreadsCreate;
        MessagesCreate "thread_1" "user" "What is the rate today?";
        RunsCreate "asst_1" "thread_1" false;
        MessagesList "thread_1" "asc" ]),
     Returns "What is the rate today?").
Proof. vm_compute. reflexivity. Qed.

(** C5, as the code has it. On a run object with status [completed] the
    runner sends one more request, the listing of the messages of the
    thread in ascending order, and returns the text of the first content
    part of the last listed message. When the listing is empty, indexing
    it raises [IndexError]. *)
Theorem completed_run_reads_last_message {Σ : Type} (self : AssistantRunner Σ)
    (thread : Thread) (run : Run) (fuel : nat) (w : world Σ) :
  status run = "completed" ->
  snd (fst (run_from self fuel thread run w))
  = snd w ++ [MessagesList (th_id thread) "asc"]
  /\ (forall σ' front m value rest,
        messages_list (client self) (th_id thread) "asc" (fst w)
        = (σ', Ok (front ++ [m])) ->
        content m = TextBlock value :: rest ->
        run_from self fuel thread run w
        = ((σ', snd w ++ [MessagesList (th_id thread) "asc"]), Returns value))
  /\ (forall σ',
        messages_list (client self) (th_id thread) "asc" (fst w) = (σ', Ok []) ->
        run_from self fuel thread run w
        = ((σ', snd w ++ [MessagesList (th_id thread) "asc"]), Raises IndexError)).
Proof.
  intros Hs.
  assert (Hout : status run ∉ polling_statuses).
  { rewrite polling_statuses_spec, Hs. intros [?|[?|?]]; discriminate. }
  rewrite run_from_exit by done. rewrite fetch_final_spec.
  split; [|split].
  - by destruct (messages_list _ _ _ _).
  - intros σ' front m value rest -> Hm. by rewrite (final_text_last _ _ _ _ Hm).
  - intros σ' ->. reflexivity.
Qed.

Lemma completed_run_reads_last_message_witness :
  run_from scripted_runner 0 (mkThread "thread_1") (polled "completed")
    ({| runs := []; listing := [text_message "hi"; text_message "6.25%"] |}, [])
  = (({| runs := []; listing := [text_message "hi"; text_message "6.25%"] |},
      [] ++ [MessagesList "thread_1" "asc"]),
     Returns "6.25%").
Proof.
  apply (proj1 (proj2 (completed_run_reads_last_message scripted_runner
                         (mkThread "thread_1") (polled "completed") 0
                         ({| runs := [];
                             listing := [text_message "hi"; text_message "6.25%"] |},
                          []) eq_refl))
           _ [text_message "hi"] (text_message "6.25%") "6.25%" []);
    reflexivity.
Defined.

(** C5, as the specification has it, fails: on a completed run whose
    thread lists no message, [run] raises [IndexError], an exception of
    another class than [EmptyConversationError]. *)
Lemma completed_run_empty_thread_index_error :
  snd (run scripted_runner 0 "What is the rate today?" None
         ({| runs := [polled "completed"]; listing := [] |}, []))
  = Raises IndexError
  /\ exn_class IndexError <> "EmptyConversationError".
Proof. split; [vm_compute; reflexivity | discriminate]. Qed.

End RunnerFacts.

(* ===================================================================== *)
(** * Further properties of the tool registry                             *)
(* ===================================================================== *)

Module RegistryProps.
Import Tools Notions.

Lemma map_injective {A B} (f : A -> B) (l1 l2 : list A) :
  (forall x y, f x = f y -> x = y) -> map f l1 = map f l2 -> l1 = l2.
Proof.
  intros Hf. revert l2. induction l1 as [|x l1 IH]; intros [|y l2]; simpl;
    try done.
  intros [= Hxy Hl]. f_equal; [by apply Hf | by apply IH].
Qed.

(** The four fields of a schema can be read off its descriptor. *)
Lemma descriptor_fields (s1 s2 : ToolSchema) :
  to_openai_dict s1 = to_openai_dict s2 ->
  name s1 = name s2 /\ description s1 = description s2
  /\ properties s1 = properties s2 /\ required s1 = required s2.
Proof.
  unfold to_openai_dict. intros [= Hn Hd Hp Hr]. repeat split; try done.
  - apply (map_injective _ _ _) in Hp; [done|].
    intros [k1 v1] [k2 v2]. simpl. by intros [= -> ->].
  - apply (map_injective _ _ _) in Hr; [done|]. by intros x y [= ->].
Qed.

(** X1. The descriptor sent to the service determines the schema: two
    schemas with the same [to_openai_dict] are the same schema. *)
Theorem to_openai_dict_injective (s1 s2 : ToolSchema) :
  to_openai_dict s1 = to_openai_dict s2 -> s1 = s2.
Proof.
  intros (Hn & Hd & Hp & Hr)%descriptor_fields.
  destruct s1, s2. simpl in *. by subst.
Qed.

Lemma to_openai_dict_injective_witness :
  webSearch_schema = webSearch_schema.
Proof. apply to_openai_dict_injective. reflexivity. Defined.

(** The built-in entries of a reachable registry are one-key dicts. *)
Lemma reachable_entries_ok (reg : ToolRegistry) :
  reachable reg -> Forall builtin_entry_ok (_tools reg).
Proof.
  induction 1 as [|tag reg _ IH|schema reg _ IH|reg Hdef].
  - constructor.
  - destruct (decide (tag ∈ builtin_names)) as [Hin|Hnot].
    + rewrite RegistryFacts.add_builtin_known by done. simpl.
      apply Forall_app. split; [exact IH|]. repeat constructor. by exists tag.
    + by rewrite RegistryFacts.add_builtin_unknown.
  - simpl. apply Forall_app. split; [exact IH|]. by repeat constructor.
  - rewrite RegistryFacts.default_is_standard in Hdef. injection Hdef as <-.
    repeat constructor; eexists; (split; [reflexivity|]);
      apply RegistryFacts.builtin_names_spec; auto.
Qed.

Lemma entry_payload_injective (t1 t2 : entry) :
  builtin_entry_ok t1 -> builtin_entry_ok t2 ->
  match t1 with Dict d => d | Schema s => to_openai_dict s end
  = match t2 with Dict d => d | Schema s => to_openai_dict s end ->
  t1 = t2.
Proof.
  destruct t1 as [s1|d1], t2 as [s2|d2]; simpl.
  - intros _ _ (Hn & Hd & Hp & Hr)%descriptor_fields. f_equal.
    destruct s1, s2. simpl in *. by subst.
  - intros _ (tag & -> & _). discriminate.
  - intros (tag & -> & _) _. discriminate.
  - by intros _ _ ->.
Qed.

(** X2. For registries built through the constructor, the registration
    methods and the factory, the exported payload determines the registry:
    two such registries with the same [openai_tools()] list hold the same
    entries. *)
Theorem openai_tools_injective (reg1 reg2 : ToolRegistry) :
  reachable reg1 -> reachable reg2 ->
  snd (openai_tools reg1) = snd (openai_tools reg2) -> reg1 = reg2.
Proof.
  intros H1%reachable_entries_ok H2%reachable_entries_ok.
  rewrite !RegistryFacts.openai_tools_map.
  destruct reg1 as [l1], reg2 as [l2]. simpl in *. intros Hmap. f_equal.
  revert l2 H2 Hmap. induction H1 as [|t1 l1 Ht1 _ IH]; intros l2 H2; simpl.
  - by destruct l2.
  - destruct H2 as [|t2 l2 Ht2 H2]; simpl; [done|].
    intros [= Ht Hl]. f_equal; [by apply entry_payload_injective | by apply IH].
Qed.

Lemma openai_tools_injective_witness :
  fst (add_builtin "file_search" init) = fst (add_builtin "file_search" init).
Proof.
  apply openai_tools_injective;
    [apply reach_add_builtin, reach_init .. | reflexivity].
Defined.

(** X3. Every descriptor exported by such a registry has a [type] key
    whose value is [function], [code_interpreter] or [file_search]. *)
Theorem openai_tools_types (reg : ToolRegistry) :
  reachable reg ->
  Forall (fun d => exists t, dict_get "type" d = Some (JStr t)
                             /\ t ∈ descriptor_types)
         (snd (openai_tools reg)).
Proof.
  intros H%reachable_entries_ok. rewrite RegistryFacts.openai_tools_map.
  apply Forall_map. eapply Forall_impl; [exact H|].
  intros [s|d]; simpl.
  - intros _. exists "function". split; [reflexivity|]. apply list_elem_of_here.
  - intros (tag & -> & Htag). exists tag. split; [reflexivity|].
    apply RegistryFacts.builtin_names_spec in Htag as [-> | ->];
      unfold descriptor_types; set_solver.
Qed.

Lemma openai_tools_types_witness :
  Forall (fun d => exists t, dict_get "type" d = Some (JStr t)
                             /\ t ∈ descriptor_types)
         (snd (openai_tools standard_toolset)).
Proof.
  apply openai_tools_types. apply reach_default. reflexivity.
Defined.

(** X4. A registration, successful or not, never removes or moves what was
    registered before: a descriptor exported at an index is still exported
    at that index afterwards. *)
Theorem registration_keeps_payload (reg : ToolRegistry) (i : nat) (d : pydict) :
  snd (openai_tools reg) !! i = Some d ->
  (forall tag, snd (openai_tools (fst (add_builtin tag reg))) !! i = Some d)
  /\ (forall schema, snd (openai_tools (fst (add_function schema reg))) !! i = Some d).
Proof.
  intros Hi. split.
  - intros tag. destruct (decide (tag ∈ builtin_names)) as [Hin|Hnot].
    + rewrite RegistryFacts.add_builtin_known by done.
      rewrite RegistryFacts.openai_tools_map in *. simpl. rewrite map_app.
      by apply lookup_app_l_Some.
    + by rewrite RegistryFacts.add_builtin_unknown.
  - intros schema. rewrite RegistryFacts.openai_tools_map in *. simpl.
    rewrite map_app. by apply lookup_app_l_Some.
Qed.

Lemma registration_keeps_payload_witness :
  (forall tag,
     snd (openai_tools (fst (add_builtin tag standard_toolset))) !! 2
     = Some (to_openai_dict webSearch_schema))
  /\ (forall schema,
        snd (openai_tools (fst (add_function schema standard_toolset))) !! 2
        = Some (to_openai_dict webSearch_schema)).
Proof.
  apply (registration_keeps_payload standard_toolset 2
           (to_openai_dict webSearch_schema)).
  reflexivity.
Defined.

End RegistryProps.

(* ===================================================================== *)
(** * Further properties of the tool dispatcher                           *)
(* ===================================================================== *)

Module DispatcherProps.
Import Conversation Notions.
Local Open Scope result_scope.

(** The outputs of the three mock tools do not start with the marker of an
    unknown tool. *)
Lemma web_search_unmarked args out :
  call_web_search args = Ok out -> String.prefix "Unknown tool " out = false.
Proof.
  unfold call_web_search. destruct (unexpected_keyword _ _); [done|].
  destruct (args !! "query"); [|done]. by intros [= <-].
Qed.

Lemma get_rate_sheet_unmarked args out :
  call_get_rate_sheet args = Ok out -> String.prefix "Unknown tool " out = false.
Proof.
  unfold call_get_rate_sheet. destruct (unexpected_keyword _ _); [done|].
  destruct (args !! "loanType"); [|done]. destruct (args !! "fico"); [|done].
  destruct (args !! "ltv"); [|done]. by intros [= <-].
Qed.

Lemma create_loan_doc_unmarked args out :
  call_create_loan_doc args = Ok out -> String.prefix "Unknown tool " out = false.
Proof.
  unfold call_create_loan_doc. destruct (unexpected_keyword _ _); [done|].
  destruct (args !! "borrowerId"); [|done].
  destruct (args !! "templateId"); [|done]. by intros [= <-].
Qed.

Lemma marker_prefix (name : string) :
  String.prefix "Unknown tool " ("Unknown tool " +:+ name) = true.
Proof. simpl. by destruct name. Qed.

(** X5. The marker is not ambiguous: among the results that [handle_step]
    builds, an output starts with [Unknown tool ] exactly when the name of
    the call is none of the three known tools, whatever the arguments. *)
Theorem unknown_marker_unambiguous (call : ToolCall) (o : ToolOutput) :
  handle_call call = Ok o ->
  (String.prefix "Unknown tool " (output o) = true
   <-> fn_name (call_function call) <> "webSearch"
       /\ fn_name (call_function call) <> "getRateSheet"
       /\ fn_name (call_function call) <> "createLoanDoc").
Proof.
  unfold handle_call.
  destruct (String.eqb_spec (fn_name (call_function call)) "webSearch") as [E1|N1].
  { destruct (call_web_search _) as [out|] eqn:Hc; simpl; [|done].
    intros [= <-]. simpl. rewrite (web_search_unmarked _ _ Hc). split; [done|tauto]. }
  destruct (String.eqb_spec (fn_name (call_function call)) "getRateSheet") as [E2|N2].
  { destruct (call_get_rate_sheet _) as [out|] eqn:Hc; simpl; [|done].
    intros [= <-]. simpl. rewrite (get_rate_sheet_unmarked _ _ Hc). split; [done|tauto]. }
  destruct (String.eqb_spec (fn_name (call_function call)) "createLoanDoc") as [E3|N3].
  { destruct (call_create_loan_doc _) as [out|] eqn:Hc; simpl; [|done].
    intros [= <-]. simpl. rewrite (create_loan_doc_unmarked _ _ Hc). split; [done|tauto]. }
  intros [= <-]. cbn [output]. rewrite marker_prefix. tauto.
Qed.

Lemma unknown_marker_unambiguous_witness :
  String.prefix "Unknown tool " "Unknown tool sendEmail" = true
  <-> "sendEmail" <> "webSearch" /\ "sendEmail" <> "getRateSheet"
      /\ "sendEmail" <> "createLoanDoc".
Proof.
  apply (unknown_marker_unambiguous unknown_call
           {| tool_call_id := "call_4"; output := "Unknown tool sendEmail" |}).
  reflexivity.
Defined.

(** The loop from a list of outputs built so far adds to it what the loop
    from the empty list returns. *)
Lemma handle_loop_acc (tool_calls : list ToolCall) (outputs : list ToolOutput) :
  handle_loop tool_calls outputs
  = (outs <~ handle_loop tool_calls [] ;; Ok (outputs ++ outs)).
Proof.
  revert outputs. induction tool_calls as [|c l IH]; intros outputs; simpl.
  - by rewrite app_nil_r.
  - destruct (handle_call c) as [o|e]; simpl; [|done].
    rewrite (IH (outputs ++ [o])), (IH [o]).
    destruct (handle_loop l []); simpl; [|done]. by rewrite <- app_assoc.
Qed.

(** X6. Batches compose: the result of [handle_step] on a batch that is the
    concatenation of two batches is the result on the first followed by the
    result on the second; an exception in the first keeps the second from
    being executed. The result for a call does not depend on the calls
    around it. *)
Theorem handle_step_concat (r r1 r2 : Run) (b1 b2 : list ToolCall) :
  required_action r1 = Some b1 ->
  required_action r2 = Some b2 ->
  required_action r = Some (b1 ++ b2) ->
  handle_step r
  = (o1 <~ handle_step r1 ;; o2 <~ handle_step r2 ;; Ok (o1 ++ o2)).
Proof.
  intros H1 H2 H. unfold handle_step. rewrite H, H1, H2.
  rewrite DispatcherFacts.handle_loop_app.
  destruct (handle_loop b1 []) as [o1|e]; simpl; [|done].
  apply handle_loop_acc.
Qed.

Lemma handle_step_concat_witness :
  handle_step (awaiting ([rate_call] ++ [unknown_call]))
  = (o1 <~ handle_step (awaiting [rate_call]) ;;
     o2 <~ handle_step (awaiting [unknown_call]) ;; Ok (o1 ++ o2)).
Proof.
  apply (handle_step_concat _ _ _ [rate_call] [unknown_call]); reflexivity.
Defined.

(** X7. The three schemas of the factory agree with the signatures of the
    dispatcher: for a schema registered by [default], a call of that name
    whose arguments have every [required] name and only names declared in
    [properties] never raises and is not answered as an unknown tool. *)
Theorem default_schemas_dispatch (reg : Tools.ToolRegistry) (s : Tools.ToolSchema)
    (id : string) (args : gmap string pyval) :
  Tools.default = Ok reg ->
  Tools.Schema s ∈ Tools._tools reg ->
  (forall p, p ∈ Tools.required s -> is_Some (args !! p)) ->
  dom args ⊆ list_to_set (map fst (Tools.properties s)) ->
  exists out,
    handle_call {| call_id := id;
                   call_function := {| fn_name := Tools.name s;
                                       fn_arguments := args |} |}
    = Ok {| tool_call_id := id; output := out |}
    /\ String.prefix "Unknown tool " out = false.
Proof.
  intros Hdef Hin Hreq Hdom.
  rewrite RegistryFacts.default_is_standard in Hdef. injection Hdef as <-.
  assert (Hcall : forall required optional,
            Tools.required s = required ->
            map fst (Tools.properties s) = required ++ optional ->
            binds required optional args = true).
  { intros required optional Hr Hp. apply DispatcherFacts.binds_intro.
    - unfold unexpected_keyword. apply bool_decide_eq_false.
      rewrite <- Hp. tauto.
    - apply Forall_forall. intros p Hp'. apply Hreq. by rewrite Hr. }
  simpl in Hin. rewrite !elem_of_cons, elem_of_nil in Hin.
  destruct Hin as [Hin|[Hin|[Hin|[Hin|[Hin|[]]]]]]; try discriminate Hin;
    injection Hin as ->; unfold handle_call; simpl.
  - pose proof (DispatcherFacts.call_web_search_spec args) as H.
    rewrite (Hcall ["query"] ["freshness_days"]) in H by done.
    destruct H as [out H]. rewrite H. simpl. exists out.
    split; [done | by eapply web_search_unmarked].
  - pose proof (DispatcherFacts.call_get_rate_sheet_spec args) as H.
    rewrite (Hcall ["loanType"; "fico"; "ltv"] []) in H by done.
    destruct H as [out H]. rewrite H. simpl. exists out.
    split; [done | by eapply get_rate_sheet_unmarked].
  - pose proof (DispatcherFacts.call_create_loan_doc_spec args) as H.
    rewrite (Hcall ["borrowerId"; "templateId"] []) in H by done.
    destruct H as [out H]. rewrite H. simpl. exists out.
    split; [done | by eapply create_loan_doc_unmarked].
Qed.

Lemma default_schemas_dispatch_witness :
  exists out,
    handle_call {| call_id := "call_9";
                   call_function :=
                     {| fn_name := "webSearch";
                        fn_arguments := {[ "query" := VStr "rates" ]} |} |}
    = Ok {| tool_call_id := "call_9"; output := out |}
    /\ String.prefix "Unknown tool " out = false.
Proof.
  apply (default_schemas_dispatch Tools.standard_toolset Tools.webSearch_schema
           "call_9" {[ "query" := VStr "rates" ]}).
  - reflexivity.
  - vm_compute. apply list_elem_of_further, list_elem_of_further, list_elem_of_here.
  - intros p Hp. simpl in Hp. apply list_elem_of_singleton in Hp as ->.
    rewrite lookup_singleton_eq. by eexists.
  - apply (bool_decide_unpack _). vm_compute. exact I.
Defined.

End DispatcherProps.

(* ===================================================================== *)
(** * Further properties of the assistant runner                          *)
(* ===================================================================== *)

Module RunnerProps.
Import Conversation Notions.

(** X8. [final_text] returns a text exactly when the listing has a last
    message whose first content part is a text part, and the text is that
    of this part: earlier messages and later parts are not read, and a
    last message that starts with an image has no reply. *)
Theorem final_text_returns (data : list Message) (value : string) :
  final_text data = Ok value
  <-> exists front m rest, data = front ++ [m] /\ content m = TextBlock value :: rest.
Proof.
  unfold final_text. split.
  - destruct (last data) as [m|] eqn:Hlast; [|done].
    apply last_Some in Hlast as [front ->].
    destruct (content m) as [|[v|f|u] rest] eqn:Hm; try done.
    intros [= ->]. by exists front, m, rest.
  - intros (front & m & rest & -> & Hm). by rewrite last_snoc, Hm.
Qed.

Section WithRunner.
Context {Σ : Type} (self : AssistantRunner Σ).

(** Step 1 is one request, whichever way the thread is resolved. *)
Lemma run_unfold fuel user_message thread_id :
  run self fuel user_message thread_id
  = bind (request (resolve_event thread_id) (resolve (client self) thread_id))
      (fun thread =>
         bind (request (MessagesCreate (th_id thread) "user" user_message)
                 (messages_create (client self) (th_id thread) "user" user_message))
           (fun _ =>
              bind (request (RunsCreate (assistant_id self) (th_id thread) false)
                      (runs_create (client self) (assistant_id self) (th_id thread) false))
                (fun r => run_from self fuel thread r))).
Proof. by destruct thread_id. Qed.

(** What one iteration adds to the trace. *)
Lemma poll_step_trace thread r w :
  snd (fst (poll_step self thread r w)) = snd w ++ step_events (th_id thread) r.
Proof.
  unfold step_events. destruct (String.eqb_spec (status r) "requires_action") as [E|N].
  - destruct (handle_step r) as [outputs|e] eqn:Hs.
    + rewrite (RunnerFacts.poll_step_submits _ _ _ _ outputs) by done.
      by destruct (runs_submit_tool_outputs _ _ _ _ _).
    + unfold poll_step. apply String.eqb_eq in E. rewrite E, Hs.
      unfold bind, lift. simpl. by rewrite app_nil_r.
  - rewrite RunnerFacts.poll_step_waits by done.
    by destruct (runs_retrieve _ _ _ _).
Qed.

Lemma loop_trace_step thread_id r evs :
  loop_trace thread_id evs -> loop_trace thread_id (step_events thread_id r ++ evs).
Proof.
  intros H. unfold step_events. destruct (String.eqb _ _).
  - destruct (handle_step r); simpl; [by constructor | done].
  - simpl. by constructor.
Qed.

Lemma poll_loop_trace fuel thread r w :
  exists evs,
    snd (fst (poll_loop self fuel thread r w)) = snd w ++ evs
    /\ loop_trace (th_id thread) evs.
Proof.
  revert r w. induction fuel as [|fuel IH]; intros r w.
  - exists []. split; [|constructor]. simpl. rewrite app_nil_r.
    by case_bool_decide.
  - destruct (decide (status r ∈ polling_statuses)) as [Hin|Hout].
    + rewrite RunnerFacts.poll_loop_continue by done. unfold bind.
      pose proof (poll_step_trace thread r w) as Hstep.
      destruct (poll_step self thread r w) as [w1 [r1|e|]]; simpl in Hstep.
      * destruct (IH r1 w1) as (evs & -> & Hevs).
        exists (step_events (th_id thread) r ++ evs).
        split; [by rewrite Hstep, app_assoc | by apply loop_trace_step].
      * exists (step_events (th_id thread) r ++ []).
        split; [by rewrite app_nil_r | apply loop_trace_step; constructor].
      * exists (step_events (th_id thread) r ++ []).
        split; [by rewrite app_nil_r | apply loop_trace_step; constructor].
    + rewrite RunnerFacts.poll_loop_exit by done. exists [].
      split; [by rewrite app_nil_r | constructor].
Qed.

(** X9. The requests of a turn that returns a reply. [run] resolves the
    thread once, posts the user message once, creates one run, then sends
    pauses followed by retrievals and submissions of tool outputs, and
    lists the messages once, at the end; every request after the first is
    addressed to the id of the thread that the first one returned. *)
Theorem run_trace_shape fuel user_message thread_id w w' reply :
  run self fuel user_message thread_id w = (w', Returns reply) ->
  exists σ1 thread blocks,
    resolve (client self) thread_id (fst w) = (σ1, Ok thread)
    /\ snd w'
       = snd w
         ++ [ resolve_event thread_id;
              MessagesCreate (th_id thread) "user" user_message;
              RunsCreate (assistant_id self) (th_id thread) false ]
         ++ blocks ++ [MessagesList (th_id thread) "asc"]
    /\ loop_trace (th_id thread) blocks.
Proof.
  rewrite run_unfold. unfold bind at 1 2 3, request. simpl.
  destruct (resolve _ _ _) as [σ1 [thread|e]] eqn:H1; simpl; [|done].
  destruct (messages_create _ _ _ _ _) as [σ2 [[]|e]]; simpl; [|done].
  destruct (runs_create _ _ _ _ _) as [σ3 [r|e]]; simpl; [|done].
  unfold run_from, bind.
  match goal with |- context [poll_loop self fuel thread r ?w0] =>
    destruct (poll_loop_trace fuel thread r w0) as (blocks & Htr & Hshape);
    destruct (poll_loop self fuel thread r w0) as [w1 [r1|e|]]; [|done|done]
  end.
  rewrite RunnerFacts.fetch_final_spec. simpl in Htr.
  destruct (messages_list _ _ _ _) as [σ4 listed]. intros [= <- _].
  exists σ1, thread, blocks. split; [done|]. split; [|done].
  simpl. rewrite Htr. by rewrite <- !app_assoc.
Qed.

(** X10. An exception of one of the first three requests leaves [run] as
    it is, and nothing is sent after the request that raised: no message
    is posted on a thread that could not be resolved, and no run is created
    when the message could not be posted. *)
Theorem run_startup_errors fuel user_message thread_id w :
  (forall σ1 e,
     resolve (client self) thread_id (fst w) = (σ1, Raise e) ->
     run self fuel user_message thread_id w
     = ((σ1, snd w ++ [resolve_event thread_id]), Raises e))
  /\ (forall σ1 thread σ2 e,
        resolve (client self) thread_id (fst w) = (σ1, Ok thread) ->
        messages_create (client self) (th_id thread) "user" user_message σ1
        = (σ2, Raise e) ->
        run self fuel user_message thread_id w
        = ((σ2, snd w ++ [ resolve_event thread_id;
                           MessagesCreate (th_id thread) "user" user_message ]),
           Raises e))
  /\ (forall σ1 thread σ2 σ3 e,
        resolve (client self) thread_id (fst w) = (σ1, Ok thread) ->
        messages_create (client self) (th_id thread) "user" user_message σ1
        = (σ2, Ok tt) ->
        runs_create (client self) (assistant_id self) (th_id thread) false σ2
        = (σ3, Raise e) ->
        run self fuel user_message thread_id w
        = ((σ3, snd w ++ [ resolve_event thread_id;
                           MessagesCreate (th_id thread) "user" user_message;
                           RunsCreate (assistant_id self) (th_id thread) false ]),
           Raises e)).
Proof.
  rewrite run_unfold. unfold bind, request. simpl.
  split; [|split].
  - by intros σ1 e ->.
  - intros σ1 thread σ2 e ->. simpl. intros ->. simpl.
    by rewrite <- app_assoc.
  - intros σ1 thread σ2 σ3 e ->. simpl. intros ->. simpl. intros ->. simpl.
    by rewrite <- !app_assoc.
Qed.

(** X11. An exception of the dispatcher ends the turn: when the run waits
    for tool outputs and [handle_step] raises (a call whose arguments do
    not bind, or a run object without required action), [run] raises that
    exception, and neither a submission nor the listing of the messages is
    sent. *)
Theorem tool_error_ends_turn fuel thread r w e :
  status r = "requires_action" ->
  handle_step r = Raise e ->
  run_from self (S fuel) thread r w = (w, Raises e).
Proof.
  intros Hs He. unfold run_from.
  rewrite RunnerFacts.poll_loop_continue
    by (rewrite RunnerFacts.polling_statuses_spec; auto).
  unfold bind, poll_step. rewrite Hs. simpl. rewrite He. reflexivity.
Qed.

(** X12. A required action without tool calls is answered all the same:
    the runner submits the empty list of outputs. *)
Theorem empty_batch_submitted thread r w :
  status r = "requires_action" ->
  required_action r = Some [] ->
  poll_step self thread r w
  = let (σ', answer) :=
      runs_submit_tool_outputs (client self) (run_id r) (th_id thread) [] (fst w) in
    ((σ', snd w ++ [SubmitToolOutputs (run_id r) (th_id thread) []]),
     of_result answer).
Proof.
  intros Hs Hra. apply RunnerFacts.poll_step_submits; [done|].
  unfold handle_step. by rewrite Hra.
Qed.

(** X13. The loop has no bound of its own: on a service that answers every
    retrieval with a run that is [queued] or [in_progress], the loop is
    still polling after any number of iterations, and what it has sent is
    exactly one pause of 750 ms followed by one retrieval per iteration,
    the first retrieval being that of the run in hand. *)
Theorem poll_loop_unbounded fuel thread r w :
  (forall rid tid σ, exists σ' r',
      runs_retrieve (client self) rid tid σ = (σ', Ok r')
      /\ (status r' = "queued" \/ status r' = "in_progress")) ->
  status r = "queued" \/ status r = "in_progress" ->
  snd (poll_loop self fuel thread r w) = OutOfFuel
  /\ length (snd (fst (poll_loop self fuel thread r w))) = length (snd w) + 2 * fuel
  /\ exists rids,
       length rids = fuel
       /\ head rids = match fuel with O => None | S _ => Some (run_id r) end
       /\ snd (fst (poll_loop self fuel thread r w))
          = snd w ++ flat_map (fun rid => [Sleep 750; RunsRetrieve rid (th_id thread)])
                       rids.
Proof.
  intros Hsvc. revert r w. induction fuel as [|fuel IH]; intros r w Hs.
  - simpl. rewrite bool_decide_eq_true_2
      by (rewrite RunnerFacts.polling_statuses_spec; tauto).
    simpl. split; [done|]. split; [lia|]. exists []. simpl.
    by rewrite app_nil_r.
  - rewrite RunnerFacts.poll_loop_continue
      by (rewrite RunnerFacts.polling_statuses_spec; tauto).
    unfold bind. rewrite RunnerFacts.poll_step_waits
      by (destruct Hs as [-> | ->]; discriminate).
    destruct (Hsvc (run_id r) (th_id thread) (fst w)) as (σ' & r' & -> & Hs').
    simpl. destruct (IH r' (σ', snd w ++ [Sleep 750; RunsRetrieve (run_id r) (th_id thread)]) Hs')
      as (-> & -> & rids & Hlen & _ & ->).
    split; [done|]. split; [simpl; rewrite length_app; simpl; lia|].
    exists (run_id r :: rids). simpl. split; [by rewrite Hlen|]. split; [done|].
    by rewrite <- app_assoc.
Qed.

(** The first request of [run] is the resolution of the thread. *)
Lemma run_trace_starts fuel user_message thread_id w :
  exists evs,
    snd (fst (run self fuel user_message thread_id w))
    = snd w ++ resolve_event thread_id :: evs.
Proof.
  rewrite run_unfold. unfold bind at 1 2 3, request. simpl.
  destruct (resolve _ _ _) as [σ1 [thread|e]]; simpl; [|by exists []].
  destruct (messages_create _ _ _ _ _) as [σ2 [[]|e]]; simpl;
    [|eexists; by rewrite <- app_assoc].
  destruct (runs_create _ _ _ _ _) as [σ3 [r|e]]; simpl;
    [|eexists; by rewrite <- !app_assoc].
  unfold run_from, bind.
  match goal with |- context [poll_loop self fuel thread r ?w0] =>
    destruct (poll_loop_trace fuel thread r w0) as (blocks & Htr & _);
    destruct (poll_loop self fuel thread r w0) as [w1 [r1|e|]]
  end; simpl in Htr.
  - rewrite RunnerFacts.fetch_final_spec.
    destruct (messages_list _ _ _ _) as [σ4 listed]. simpl. rewrite Htr.
    eexists. by rewrite <- !app_assoc.
  - simpl. rewrite Htr. eexists. by rewrite <- !app_assoc.
  - simpl. rewrite Htr. eexists. by rewrite <- !app_assoc.
Qed.

End WithRunner.

(** One iteration against the scripted service. *)
Lemma scripted_poll_step thread r x xs msgs tr :
  steppable r ->
  poll_step scripted_runner thread r ({| runs := x :: xs; listing := msgs |}, tr)
  = (({| runs := xs; listing := msgs |}, tr ++ step_events (th_id thread) r),
     Returns x).
Proof.
  intros [_ Hact]. unfold step_events.
  destruct (String.eqb_spec (status r) "requires_action") as [E|N].
  - destruct (Hact E) as [outputs Ho].
    rewrite (RunnerFacts.poll_step_submits _ _ _ _ outputs) by done.
    by rewrite Ho.
  - by rewrite RunnerFacts.poll_step_waits by done.
Qed.

(** X14. The turn ends when the service lets it. Against a service that
    answers a sequence of run objects that keep the loop going and then one
    whose status ends it, [run] leaves the loop after one iteration per
    object of the sequence, under every bound that allows that many
    iterations: it has sent one pause and retrieval for every [queued] or
    [in_progress] object and one submission, of the outputs of
    [handle_step], for every [requires_action] object, and it goes on to
    read the reply from the listing. *)
Theorem scripted_turn_ends (rs : list Run) (r : Run) (rest : list Run)
    (msgs : list Message) (thread : Thread) (run0 : Run) (tr : list event) (k : nat) :
  Forall steppable (run0 :: rs) ->
  status r ∉ polling_statuses ->
  run_from scripted_runner (length rs + 1 + k) thread run0
    ({| runs := rs ++ r :: rest; listing := msgs |}, tr)
  = (({| runs := rest; listing := msgs |},
      tr ++ flat_map (step_events (th_id thread)) (run0 :: rs)
         ++ [MessagesList (th_id thread) "asc"]),
     of_result (final_text msgs)).
Proof.
  intros Hall Hr. unfold run_from, bind.
  assert (Hloop :
    poll_loop scripted_runner (length rs + 1 + k) thread run0
      ({| runs := rs ++ r :: rest; listing := msgs |}, tr)
    = (({| runs := rest; listing := msgs |},
        tr ++ flat_map (step_events (th_id thread)) (run0 :: rs)),
       Returns r)).
  { revert run0 tr Hall. induction rs as [|x rs IH]; intros run0 tr Hall.
    - apply Forall_cons in Hall as [H0 _].
      change (length (@nil Run) + 1 + k) with (S k).
      rewrite RunnerFacts.poll_loop_continue by apply H0.
      unfold bind. cbn [app]. rewrite scripted_poll_step by done.
      rewrite RunnerFacts.poll_loop_exit by done. simpl. by rewrite app_nil_r.
    - apply Forall_cons in Hall as [H0 Hall].
      change (length (x :: rs) + 1 + k) with (S (length rs + 1 + k)).
      rewrite RunnerFacts.poll_loop_continue by apply H0.
      unfold bind. cbn [app]. rewrite scripted_poll_step by done.
      rewrite (IH x _ Hall). simpl. by rewrite <- !app_assoc. }
  rewrite Hloop. rewrite RunnerFacts.fetch_final_spec. simpl.
  by rewrite <- app_assoc.
Qed.

Lemma scripted_turn_ends_witness :
  run_from scripted_runner (length [awaiting [rate_call]; polled "in_progress"] + 1 + 7)
    (mkThread "thread_1") (polled "queued")
    ({| runs := [awaiting [rate_call]; polled "in_progress"]
                ++ polled "completed" :: [];
        listing := [text_message "6.25%"] |}, [])
  = (({| runs := []; listing := [text_message "6.25%"] |},
      [] ++ flat_map (step_events "thread_1")
              (polled "queued" :: [awaiting [rate_call]; polled "in_progress"])
         ++ [MessagesList "thread_1" "asc"]),
     of_result (final_text [text_message "6.25%"])).
Proof.
  apply (scripted_turn_ends [awaiting [rate_call]; polled "in_progress"]
           (polled "completed") [] [text_message "6.25%"] (mkThread "thread_1")
           (polled "queued") [] 7).
  - repeat constructor;
      try (apply RunnerFacts.polling_statuses_spec; simpl; tauto);
      try discriminate.
    intros _. eexists. vm_compute. reflexivity.
  - rewrite RunnerFacts.polling_statuses_spec. simpl.
    intros [? | [? | ?]]; discriminate.
Defined.

Lemma run_startup_errors_witness :
  run scripted_runner 5 "hello" (Some "thread_7")
    ({| runs := []; listing := [] |}, [])
  = (({| runs := []; listing := [] |},
      [] ++ [ ThreadsRetrieve "thread_7";
              MessagesCreate "thread_7" "user" "hello";
              RunsCreate "asst_1" "thread_7" false ]),
     Raises (ClientError "APIConnectionError" "Connection error.")).
Proof.
  apply (proj2 (proj2 (run_startup_errors scripted_runner 5 "hello"
                         (Some "thread_7") ({| runs := []; listing := [] |}, [])))
           {| runs := []; listing := [] |} (mkThread "thread_7")
           {| runs := []; listing := [] |} {| runs := []; listing := [] |}
           (ClientError "APIConnectionError" "Connection error."));
    reflexivity.
Defined.

Lemma final_text_returns_witness :
  final_text [text_message "hi"; text_message "6.25%"] = Ok "6.25%".
Proof.
  apply final_text_returns.
  exists [text_message "hi"], (text_message "6.25%"), []. split; reflexivity.
Defined.

Lemma run_trace_shape_witness :
  exists σ1 thread blocks,
    resolve scripted None {| runs := [polled "completed"]; listing := [text_message "ok"] |}
    = (σ1, Ok thread)
    /\ [ ThreadsCreate; MessagesCreate "thread_1" "user" "hello";
         RunsCreate "asst_1" "thread_1" false; MessagesList "thread_1" "asc" ]
       = [] ++ [ resolve_event None;
                 MessagesCreate (th_id thread) "user" "hello";
                 RunsCreate "asst_1" (th_id thread) false ]
         ++ blocks ++ [MessagesList (th_id thread) "asc"]
    /\ loop_trace (th_id thread) blocks.
Proof.
  apply (run_trace_shape scripted_runner 0 "hello" None
           ({| runs := [polled "completed"]; listing := [text_message "ok"] |}, [])
           ({| runs := []; listing := [text_message "ok"] |},
            [ ThreadsCreate; MessagesCreate "thread_1" "user" "hello";
              RunsCreate "asst_1" "thread_1" false; MessagesList "thread_1" "asc" ])
           "ok").
  vm_compute. reflexivity.
Defined.

Lemma tool_error_ends_turn_witness :
  run_from scripted_runner 1 (mkThread "thread_1") (polled "requires_action")
    ({| runs := []; listing := [] |}, [])
  = (({| runs := []; listing := [] |}, []), Raises AttributeError).
Proof. apply tool_error_ends_turn; reflexivity. Defined.

Lemma empty_batch_submitted_witness :
  poll_step scripted_runner (mkThread "thread_1") (awaiting [])
    ({| runs := [polled "completed"]; listing := [] |}, [])
  = (({| runs := []; listing := [] |},
      [] ++ [SubmitToolOutputs "run_1" "thread_1" []]),
     Returns (polled "completed")).
Proof.
  apply (empty_batch_submitted scripted_runner (mkThread "thread_1") (awaiting [])
           ({| runs := [polled "completed"]; listing := [] |}, []));
    reflexivity.
Defined.

Lemma poll_loop_unbounded_witness :
  snd (poll_loop waiting_runner 1000 (mkThread "thread_1") (polled "queued") (tt, []))
  = OutOfFuel
  /\ length (snd (fst (poll_loop waiting_runner 1000 (mkThread "thread_1")
                         (polled "queued") (tt, []))))
     = length (@nil event) + 2 * 1000
  /\ exists rids,
       length rids = 1000
       /\ head rids = Some (run_id (polled "queued"))
       /\ snd (fst (poll_loop waiting_runner 1000 (mkThread "thread_1")
                      (polled "queued") (tt, [])))
          = [] ++ flat_map (fun rid => [Sleep 750; RunsRetrieve rid "thread_1"]) rids.
Proof.
  apply poll_loop_unbounded.
  - intros rid tid σ. exists σ, (polled "queued"). split; [reflexivity | by left].
  - by left.
Defined.

End RunnerProps.


(* ===================================================================== *)
(** * Properties of the pipeline                                          *)
(* ===================================================================== *)

Module PipelineProps.
Import Conversation Notions Pipeline.

Section WithBackend.
Context {Σ : Type} (backend : Backend Σ).

(** *** The upload loop *)

Lemma upload_loop_cons p rest acc w :
  upload_loop backend (p :: rest) acc w
  = if path_exists backend p (fst w) then
      pbind (perform (Open p "rb") (open_file backend p "rb"))
        (fun _ =>
           pbind (perform (FilesCreate p "assistants")
                    (files_create backend p "assistants"))
             (fun upload_id => upload_loop backend rest (acc ++ [upload_id])))
        (fst w, snd w ++ [PathExists p])
    else ((fst w, snd w ++ [PathExists p]), Raises (FileNotFoundError p)).
Proof.
  simpl. unfold pbind at 1, exists_. simpl.
  by destruct (path_exists backend p (fst w)).
Qed.

Lemma upload_loop_app l1 l2 acc w :
  upload_loop backend (l1 ++ l2) acc w
  = pbind (upload_loop backend l1 acc) (upload_loop backend l2) w.
Proof.
  revert acc w. induction l1 as [|p l1 IH]; intros acc w; [done|].
  cbn [app]. unfold pbind at 1. rewrite !upload_loop_cons.
  destruct (path_exists backend p (fst w)); [|done].
  unfold pbind, perform. simpl.
  destruct (open_file backend p "rb" (fst w)) as [σ1 [[]|e]]; simpl; [|done].
  destruct (files_create backend p "assistants" σ1) as [σ2 [upload_id|e]];
    simpl; [|done].
  apply IH.
Qed.


(** *** The wait for the vector store *)

Lemma wait_completed_trace fuel vs w :
  exists polls,
    snd (fst (wait_completed backend fuel vs w))
    = snd w ++ map VectorStoresRetrieve polls
    /\ length polls <= fuel
    /\ (vs_status vs = "completed" -> polls = [])
    /\ (forall vs', snd (wait_completed backend fuel vs w) = Returns vs' ->
          vs_status vs' = "completed").
Proof.
  revert vs w. induction fuel as [|fuel IH]; intros vs w.
  - exists []. simpl. rewrite app_nil_r.
    destruct (String.eqb_spec (vs_status vs) "completed") as [E|N]; simpl.
    + repeat split; try done. by intros vs' [= <-].
    + repeat split; try done.
  - simpl. destruct (String.eqb_spec (vs_status vs) "completed") as [E|N]; simpl.
    + exists []. simpl. rewrite app_nil_r. repeat split; try done; [lia|].
      by intros vs' [= <-].
    + unfold pbind, perform. simpl.
      destruct (vector_stores_retrieve backend (vs_id vs) (fst w))
        as [σ1 [vs1|e]]; simpl.
      * destruct (IH vs1 (σ1, snd w ++ [VectorStoresRetrieve (vs_id vs)]))
          as (polls & Htr & Hlen & _ & Hret).
        exists (vs_id vs :: polls). simpl in *.
        split; [by rewrite Htr, <- app_assoc|].
        split; [lia|]. split; [done|]. exact Hret.
      * exists [vs_id vs]. simpl. repeat split; try done. lia.
Qed.


(** What the upload loop has done when it returns. *)
Lemma upload_loop_returns files acc w w' ids :
  upload_loop backend files acc w = (w', Returns ids) ->
  exists new,
    ids = acc ++ new
    /\ uploaded backend (fst w) files (fst w') new
    /\ snd w'
       = snd w ++ flat_map (fun p => [ PathExists p; Open p "rb";
                                       FilesCreate p "assistants" ]) files.
Proof.
  revert acc w. induction files as [|p files IH]; intros acc w.
  - simpl. intros [= <- <-]. exists []. rewrite !app_nil_r.
    split; [done|]. split; [constructor | done].
  - rewrite upload_loop_cons.
    destruct (path_exists backend p (fst w)) eqn:Hp; [|done].
    unfold pbind, perform. simpl.
    destruct (open_file backend p "rb" (fst w)) as [σ1 [[]|e]] eqn:Ho; simpl;
      [|done].
    destruct (files_create backend p "assistants" σ1) as [σ2 [upload_id|e]] eqn:Hc;
      simpl; [|done].
    intros (new & -> & Hup & Htr)%IH. simpl in Hup, Htr.
    exists (upload_id :: new). split; [by rewrite <- app_assoc|].
    split; [by econstructor|]. rewrite Htr. simpl. by rewrite <- !app_assoc.
Qed.

Lemma uploaded_length σ files σ' ids :
  uploaded backend σ files σ' ids -> length ids = length files.
Proof. induction 1; simpl; congruence. Qed.

(** What the wait has done when it returns. *)
Lemma wait_completed_returns fuel vs w w' vs' :
  wait_completed backend fuel vs w = (w', Returns vs') ->
  exists polls,
    awaited backend (fst w) vs (fst w') vs' polls
    /\ length polls <= fuel
    /\ snd w' = snd w ++ map VectorStoresRetrieve polls.
Proof.
  revert vs w. induction fuel as [|fuel IH]; intros vs w; simpl;
    destruct (String.eqb_spec (vs_status vs) "completed") as [E|N]; simpl;
    try done.
  - intros [= <- <-]. exists []. rewrite app_nil_r.
    split; [by constructor | done].
  - intros [= <- <-]. exists []. rewrite app_nil_r.
    split; [by constructor|]. split; [simpl; lia | done].
  - unfold pbind, perform.
    destruct (vector_stores_retrieve backend (vs_id vs) (fst w))
      as [σ1 [vs1|e]] eqn:Hr; simpl; [|done].
    intros (polls & Hpolled & Hlen & Htr)%IH. simpl in Hpolled, Htr.
    exists (vs_id vs :: polls). split; [by econstructor|].
    split; [simpl; lia|]. rewrite Htr. simpl. by rewrite <- app_assoc.
Qed.

(** X15. When [_index_temp_files] returns, it has tested, opened and
    uploaded every file of the list once, in the order of the list; it has
    then created one vector store named [temp_vs] from the ids that these
    uploads returned, in that order; it has then only retrieved the store,
    without pause, until an answer had status [completed]; and what it
    returns is the id of that answer. *)
Theorem index_uploads_in_order fuel files w w' id :
  _index_temp_files backend fuel files w = (w', Returns id) ->
  exists σ1 ids σ2 created ready polls,
    uploaded backend (fst w) files σ1 ids
    /\ vector_stores_create backend "temp_vs" ids σ1 = (σ2, Ok created)
    /\ awaited backend σ2 created (fst w') ready polls
    /\ vs_status ready = "completed"
    /\ id = vs_id ready
    /\ length ids = length files
    /\ length polls <= fuel
    /\ snd w'
       = snd w
         ++ flat_map (fun p => [ PathExists p; Open p "rb";
                                 FilesCreate p "assistants" ]) files
         ++ VectorStoresCreate "temp_vs" ids :: map VectorStoresRetrieve polls.
Proof.
  unfold _index_temp_files, pbind at 1.
  destruct (upload_loop backend files [] w) as [w1 [ids|e|]] eqn:Hup; [|done|done].
  apply upload_loop_returns in Hup as (new & Hids & Hup & Htr1).
  simpl in Hids. subst ids.
  unfold pbind at 1, perform.
  destruct (vector_stores_create backend "temp_vs" new (fst w1))
    as [σ2 [created|e]] eqn:Hcreate; simpl; [|done].
  unfold pbind.
  destruct (wait_completed backend fuel created _) as [w3 [ready|e|]] eqn:Hwait;
    [|done|done].
  pose proof (wait_completed_trace fuel created
                (σ2, snd w1 ++ [VectorStoresCreate "temp_vs" new]))
    as (_ & _ & _ & _ & Hdone).
  rewrite Hwait in Hdone. specialize (Hdone ready eq_refl).
  apply wait_completed_returns in Hwait as (polls & Hpolled & Hfuel & Htr2).
  simpl in Hpolled, Htr2. unfold pret. intros [= <- <-].
  exists (fst w1), new, σ2, created, ready, polls.
  split; [done|]. split; [done|]. split; [done|]. split; [done|].
  split; [done|]. split; [by eapply uploaded_length|]. split; [done|].
  rewrite Htr2, Htr1. by rewrite <- !app_assoc.
Qed.

(** X16. A file that does not exist stops the indexing where it stands:
    [_index_temp_files] raises [FileNotFoundError] with the path of that
    file right after the test; the files before it have been uploaded and
    stay so, the files after it are not looked at, and no vector store is
    created. *)
Theorem missing_file_stops_indexing fuel before p after w w1 ids :
  upload_loop backend before [] w = (w1, Returns ids) ->
  path_exists backend p (fst w1) = false ->
  _index_temp_files backend fuel (before ++ p :: after) w
  = ((fst w1, snd w1 ++ [PathExists p]), Raises (FileNotFoundError p)).
Proof.
  intros Hbefore Hmissing. unfold _index_temp_files, pbind at 1.
  rewrite upload_loop_app. unfold pbind at 1. rewrite Hbefore.
  rewrite upload_loop_cons, Hmissing. reflexivity.
Qed.

(** X17. The wait has one exit only: [wait_completed] returns a store
    whose status is [completed], and when the store is [completed] as it
    is created, no retrieval is sent. *)
Theorem wait_returns_completed fuel vs w w' vs' :
  wait_completed backend fuel vs w = (w', Returns vs') ->
  vs_status vs' = "completed"
  /\ (vs_status vs = "completed" -> w' = w /\ vs' = vs).
Proof.
  intros H. destruct (wait_completed_trace fuel vs w) as (polls & _ & _ & _ & Hret).
  split; [apply Hret; by rewrite H|].
  intros E. destruct fuel; simpl in H; rewrite E in H; simpl in H;
    by injection H as <- <-.
Qed.

(** X18. A vector store that fails is waited for without end: when every
    retrieval answers a store whose status is not [completed], [failed]
    say, the loop is still retrieving after any number of iterations, and
    what it has sent is exactly one retrieval per iteration, without pause,
    the first being that of the store in hand. *)
Theorem wait_unbounded fuel vs w :
  (forall v σ, exists σ' vs',
      vector_stores_retrieve backend v σ = (σ', Ok vs')
      /\ vs_status vs' <> "completed") ->
  vs_status vs <> "completed" ->
  snd (wait_completed backend fuel vs w) = OutOfFuel
  /\ length (snd (fst (wait_completed backend fuel vs w))) = length (snd w) + fuel
  /\ exists polls,
       length polls = fuel
       /\ head polls = match fuel with O => None | S _ => Some (vs_id vs) end
       /\ snd (fst (wait_completed backend fuel vs w))
          = snd w ++ map VectorStoresRetrieve polls.
Proof.
  intros Hsvc. revert vs w. induction fuel as [|fuel IH]; intros vs w Hs;
    simpl; apply String.eqb_neq in Hs as Hb; rewrite Hb; simpl.
  - split; [done|]. split; [lia|]. exists []. simpl. by rewrite app_nil_r.
  - unfold pbind, perform.
    destruct (Hsvc (vs_id vs) (fst w)) as (σ' & vs' & -> & Hs'). simpl.
    destruct (IH vs' (σ', snd w ++ [VectorStoresRetrieve (vs_id vs)]) Hs')
      as (-> & -> & polls & Hlen & _ & ->).
    split; [done|]. split; [simpl; rewrite length_app; simpl; lia|].
    exists (vs_id vs :: polls). simpl. split; [by rewrite Hlen|]. split; [done|].
    by rewrite <- app_assoc.
Qed.

(** *** The constructor and the public entry point *)

(** X19. Which vector store the assistant is bound to. When [temp_files]
    holds a file, the [vector_store_id] that was passed is not used at
    all; an empty list of files is the same as no list; and an empty
    [vector_store_id] without files is the same as none. *)
Theorem init_vector_store_choice fuel api_key endpoint api_version model :
  (forall v1 v2 p rest w,
     __init__ backend fuel api_key endpoint api_version model v1 (Some (p :: rest)) w
     = __init__ backend fuel api_key endpoint api_version model v2 (Some (p :: rest)) w)
  /\ (forall v w,
        __init__ backend fuel api_key endpoint api_version model v (Some []) w
        = __init__ backend fuel api_key endpoint api_version model v None w)
  /\ (forall temp_files w,
        truthy_list temp_files = false ->
        __init__ backend fuel api_key endpoint api_version model (Some "") temp_files w
        = __init__ backend fuel api_key endpoint api_version model None temp_files w).
Proof.
  split; [|split].
  - reflexivity.
  - reflexivity.
  - intros temp_files w Hf. unfold __init__. by rewrite Hf.
Qed.


(** X22. How the constructor fails. An exception of the indexing (a
    missing file, an upload or the vector store) leaves the constructor
    before any assistant is created. Once the vector store is known, with
    or without files, an exception of the creation of the assistant leaves
    the constructor right after that request, and an exception of the
    Haystack construction leaves it after the assistant has been created
    on the service: the assistant stays there, and no pipeline object
    exists. *)
Theorem init_failures fuel api_key endpoint api_version model
    vector_store_id temp_files w :
  (forall w1 err,
     truthy_list temp_files = true ->
     _index_temp_files backend fuel (default [] temp_files) w = (w1, Raises err) ->
     __init__ backend fuel api_key endpoint api_version model vector_store_id
       temp_files w
     = (w1, Raises err))
  /\ (forall w1 bound,
        (truthy_list temp_files = false /\ w1 = w /\ bound = vector_store_id)
        \/ (truthy_list temp_files = true
            /\ exists vs,
                 _index_temp_files backend fuel (default [] temp_files) w
                 = (w1, Returns vs)
                 /\ bound = Some vs) ->
        (forall σ1 err,
           assistants_create backend "Lending Copilot"
             (default "GPT4O_DEPLOYMENT" model) instructions
             (snd (Tools.openai_tools Tools.standard_toolset))
             (tool_resources bound) (fst w1)
           = (σ1, Raise err) ->
           __init__ backend fuel api_key endpoint api_version model vector_store_id
             temp_files w
           = ((σ1, snd w1
                     ++ [ AssistantsCreate "Lending Copilot"
                            (default "GPT4O_DEPLOYMENT" model) instructions
                            (snd (Tools.openai_tools Tools.standard_toolset))
                            (tool_resources bound) ]),
              Raises err))
        /\ (forall σ1 assistant σ2 err,
              assistants_create backend "Lending Copilot"
                (default "GPT4O_DEPLOYMENT" model) instructions
                (snd (Tools.openai_tools Tools.standard_toolset))
                (tool_resources bound) (fst w1)
              = (σ1, Ok assistant) ->
              haystack_build backend σ1 = (σ2, Raise err) ->
              __init__ backend fuel api_key endpoint api_version model
                vector_store_id temp_files w
              = ((σ2, snd w1
                        ++ [ AssistantsCreate "Lending Copilot"
                               (default "GPT4O_DEPLOYMENT" model) instructions
                               (snd (Tools.openai_tools Tools.standard_toolset))
                               (tool_resources bound);
                             HaystackBuild ]),
                 Raises err))).
Proof.
  split.
  - intros w1 err Htf Hidx. unfold __init__. unfold pbind at 1, plift.
    rewrite RegistryFacts.default_is_standard. cbn [of_result]. rewrite Htf.
    unfold pbind at 1 2. by rewrite Hidx.
  - intros w1 bound Hphase.
    assert (Hstart :
      __init__ backend fuel api_key endpoint api_version model vector_store_id
        temp_files w
      = pbind
          (perform
             (AssistantsCreate "Lending Copilot" (default "GPT4O_DEPLOYMENT" model)
                instructions (snd (Tools.openai_tools Tools.standard_toolset))
                (tool_resources bound))
             (assistants_create backend "Lending Copilot"
                (default "GPT4O_DEPLOYMENT" model) instructions
                (snd (Tools.openai_tools Tools.standard_toolset))
                (tool_resources bound)))
          (fun assistant =>
             pbind (perform HaystackBuild (haystack_build backend))
               (fun _ =>
                  pret {| pl_registry := Tools.standard_toolset;
                          pl_assistant_id := assistant;
                          pl_runner := {| assistant_id := assistant;
                                          client := beta backend |} |})) w1).
    { unfold __init__. unfold pbind at 1, plift.
      rewrite RegistryFacts.default_is_standard. cbn [of_result].
      destruct Hphase as [(Htf & -> & ->) | (Htf & vs & Hidx & ->)]; rewrite Htf.
      - reflexivity.
      - unfold pbind at 1 2. rewrite Hidx. reflexivity. }
    rewrite Hstart. unfold pbind, pret, perform. split.
    + intros σ1 err ->. reflexivity.
    + intros σ1 assistant σ2 err ->. cbn [of_result fst snd]. intros ->.
      cbn [of_result]. by rewrite <- app_assoc.
Qed.

(** X21. The public [run] of the pipeline. When the Haystack pipeline
    raises on the prompt, nothing is sent to the service. Otherwise the
    outcome is that of the runner on the same prompt, unchanged, and the
    turn always starts with the creation of a new thread: the pipeline
    never continues an earlier conversation. *)
Theorem pipeline_run_new_thread (self : LendingBotPipeline Σ) fuel prompt w :
  (forall σ1 e,
     pipeline_run backend prompt (fst w) = (σ1, Raise e) ->
     Pipeline.run backend self fuel prompt w
     = ((σ1, snd w ++ [PipelineRun prompt]), Raises e))
  /\ (forall σ1,
        pipeline_run backend prompt (fst w) = (σ1, Ok tt) ->
        snd (Pipeline.run backend self fuel prompt w)
        = snd (Conversation.run (pl_runner self) fuel prompt None (σ1, []))
        /\ fst (fst (Pipeline.run backend self fuel prompt w))
           = fst (fst (Conversation.run (pl_runner self) fuel prompt None (σ1, [])))
        /\ exists evs,
             snd (fst (Pipeline.run backend self fuel prompt w))
             = snd w ++ PipelineRun prompt :: Turn ThreadsCreate :: map Turn evs).
Proof.
  unfold Pipeline.run, pbind, perform, turn. split.
  - by intros σ1 e ->.
  - intros σ1 ->. simpl.
    destruct (RunnerProps.run_trace_starts (pl_runner self) fuel prompt None (σ1, []))
      as (evs & Htr).
    destruct (Conversation.run (pl_runner self) fuel prompt None (σ1, []))
      as [[σ2 tr] o]. simpl in *. subst tr.
    split; [done|]. split; [done|]. exists evs. by rewrite <- app_assoc.
Qed.

End WithBackend.

Lemma init_vector_store_choice_witness :
  __init__ scripted_backend 3 "key" "https://example" None None (Some "")
    None ({| disk := []; stores := [];
             remote := {| runs := []; listing := [] |} |}, [])
  = __init__ scripted_backend 3 "key" "https://example" None None None
      None ({| disk := []; stores := [];
               remote := {| runs := []; listing := [] |} |}, []).
Proof.
  apply (proj2 (proj2 (init_vector_store_choice scripted_backend 3 "key"
                         "https://example" None None))).
  reflexivity.
Defined.

Lemma init_failures_witness :
  __init__ scripted_backend 3 "key" "https://example" None None None
    (Some ["missing.pdf"])
    ({| disk := []; stores := [];
        remote := {| runs := []; listing := [] |} |}, [])
  = (({| disk := []; stores := [];
         remote := {| runs := []; listing := [] |} |},
      [PathExists "missing.pdf"]),
     Raises (FileNotFoundError "missing.pdf")).
Proof.
  apply (proj1 (init_failures scripted_backend 3 "key" "https://example" None
                  None None (Some ["missing.pdf"])
                  ({| disk := []; stores := [];
                      remote := {| runs := []; listing := [] |} |}, [])));
    reflexivity.
Defined.


Lemma pipeline_run_new_thread_witness :
  exists evs,
    snd (fst (Pipeline.run scripted_backend
                {| pl_registry := Tools.standard_toolset;
                   pl_assistant_id := "asst_1";
                   pl_runner := {| assistant_id := "asst_1";
                                   client := beta scripted_backend |} |}
                0 "hello"
                ({| disk := []; stores := [];
                    remote := {| runs := [polled "completed"];
                                 listing := [text_message "hi"] |} |}, [])))
    = [] ++ PipelineRun "hello" :: Turn ThreadsCreate :: map Turn evs.
Proof.
  apply (proj2 (pipeline_run_new_thread scripted_backend
                  {| pl_registry := Tools.standard_toolset;
                     pl_assistant_id := "asst_1";
                     pl_runner := {| assistant_id := "asst_1";
                                     client := beta scripted_backend |} |}
                  0 "hello"
                  ({| disk := []; stores := [];
                      remote := {| runs := [polled "completed"];
                                   listing := [text_message "hi"] |} |}, []))
           {| disk := []; stores := [];
              remote := {| runs := [polled "completed"];
                           listing := [text_message "hi"] |} |}).
  reflexivity.
Defined.

Lemma index_uploads_in_order_witness :
  exists σ1 ids σ2 created ready polls,
    uploaded scripted_backend
      {| disk := ["a.pdf"];
         stores := [ mkVectorStore "vs_1" "in_progress";
                     mkVectorStore "vs_1" "completed" ];
         remote := {| runs := []; listing := [] |} |} ["a.pdf"] σ1 ids
    /\ vector_stores_create scripted_backend "temp_vs" ids σ1 = (σ2, Ok created)
    /\ awaited scripted_backend σ2 created
         {| disk := ["a.pdf"]; stores := [];
            remote := {| runs := []; listing := [] |} |} ready polls
    /\ vs_status ready = "completed"
    /\ "vs_1" = vs_id ready
    /\ length ids = length ["a.pdf"]
    /\ length polls <= 3
    /\ [ PathExists "a.pdf"; Open "a.pdf" "rb"; FilesCreate "a.pdf" "assistants";
         VectorStoresCreate "temp_vs" ["file-a.pdf"]; VectorStoresRetrieve "vs_1" ]
       = [] ++ flat_map (fun p => [ PathExists p; Open p "rb";
                                    FilesCreate p "assistants" ]) ["a.pdf"]
            ++ VectorStoresCreate "temp_vs" ids :: map VectorStoresRetrieve polls.
Proof.
  apply (index_uploads_in_order scripted_backend 3 ["a.pdf"]
           ({| disk := ["a.pdf"];
               stores := [ mkVectorStore "vs_1" "in_progress";
                           mkVectorStore "vs_1" "completed" ];
               remote := {| runs := []; listing := [] |} |}, [])
           ({| disk := ["a.pdf"]; stores := [];
               remote := {| runs := []; listing := [] |} |},
            [ PathExists "a.pdf"; Open "a.pdf" "rb";
              FilesCreate "a.pdf" "assistants";
              VectorStoresCreate "temp_vs" ["file-a.pdf"];
              VectorStoresRetrieve "vs_1" ])
           "vs_1").
  vm_compute. reflexivity.
Defined.

Lemma missing_file_stops_indexing_witness :
  _index_temp_files scripted_backend 3 (["a.pdf"] ++ "b.pdf" :: ["c.pdf"])
    ({| disk := ["a.pdf"; "c.pdf"]; stores := [];
        remote := {| runs := []; listing := [] |} |}, [])
  = (({| disk := ["a.pdf"; "c.pdf"]; stores := [];
         remote := {| runs := []; listing := [] |} |},
      [ PathExists "a.pdf"; Open "a.pdf" "rb"; FilesCreate "a.pdf" "assistants" ]
      ++ [PathExists "b.pdf"]),
     Raises (FileNotFoundError "b.pdf")).
Proof.
  apply (missing_file_stops_indexing scripted_backend 3 ["a.pdf"] "b.pdf" ["c.pdf"]
           ({| disk := ["a.pdf"; "c.pdf"]; stores := [];
               remote := {| runs := []; listing := [] |} |}, [])
           ({| disk := ["a.pdf"; "c.pdf"]; stores := [];
               remote := {| runs := []; listing := [] |} |},
            [ PathExists "a.pdf"; Open "a.pdf" "rb";
              FilesCreate "a.pdf" "assistants" ])
           ["file-a.pdf"]);
    vm_compute; reflexivity.
Defined.

Lemma wait_returns_completed_witness :
  vs_status (mkVectorStore "vs_1" "completed") = "completed"
  /\ (vs_status (mkVectorStore "vs_1" "queued") = "completed" ->
      ({| disk := []; stores := [];
          remote := {| runs := []; listing := [] |} |},
       [VectorStoresRetrieve "vs_1"])
      = ({| disk := [];
            stores := [mkVectorStore "vs_1" "completed"];
            remote := {| runs := []; listing := [] |} |}, [])
      /\ mkVectorStore "vs_1" "completed" = mkVectorStore "vs_1" "queued").
Proof.
  apply (wait_returns_completed scripted_backend 2 (mkVectorStore "vs_1" "queued")
           ({| disk := []; stores := [mkVectorStore "vs_1" "completed"];
               remote := {| runs := []; listing := [] |} |}, [])).
  vm_compute. reflexivity.
Defined.

Lemma wait_unbounded_witness :
  snd (wait_completed failing_backend 500 (mkVectorStore "vs_1" "failed") (tt, []))
  = OutOfFuel
  /\ length (snd (fst (wait_completed failing_backend 500
                         (mkVectorStore "vs_1" "failed") (tt, []))))
     = length (@nil effect) + 500
  /\ exists polls,
       length polls = 500
       /\ head polls = Some "vs_1"
       /\ snd (fst (wait_completed failing_backend 500
                      (mkVectorStore "vs_1" "failed") (tt, [])))
          = [] ++ map VectorStoresRetrieve polls.
Proof.
  apply wait_unbounded.
  - intros v σ. exists σ, (mkVectorStore v "failed"). split; [reflexivity | discriminate].
  - discriminate.
Defined.

End PipelineProps.
